(** * LureQuest: the loot and progression engine of [src/core/logic.py]
      and the catch command of [src/core/bot.py], embedded in Rocq.

    Python integers are [Z]; Python floats are IEEE binary64 values, computed
    with the [SpecFloat] operations at precision 53; strings are [string];
    the players file, the random generator and raised exceptions are
    threaded through a small state-and-exception monad. *)

From Stdlib Require Import ZArith List String Ascii Bool Lia.
From Stdlib Require Import SpecFloat.
From Stdlib Require Import DecimalString Sorted Permutation.
Import ListNotations.
Open Scope string_scope.
Open Scope Z_scope.

(** ** Python floats *)

Module PyFloat.

Definition prec : Z := 53.
Definition emax : Z := 1024.

Definition float := spec_float.

(** [float(n)] for an integer [n]. *)
Definition of_int (n : Z) : float := binary_normalize prec emax n 0 false.

Definition add : float -> float -> float := SFadd prec emax.
Definition sub : float -> float -> float := SFsub prec emax.
Definition mul : float -> float -> float := SFmul prec emax.
Definition div : float -> float -> float := SFdiv prec emax.
Definition abs : float -> float := SFabs.
Definition ltb : float -> float -> bool := SFltb.
Definition leb : float -> float -> bool := SFleb.

(** A decimal literal of the source, written [n/d] with [d] a power of
    ten, denotes the double nearest to that rational: the correctly
    rounded quotient of the two (exactly representable) integers. *)
Definition literal (n d : Z) : float := div (of_int n) (of_int d).

Definition zero : float := of_int 0.
Definition one : float := of_int 1.

(** Nearest integer to [(-1)^s * m * 2^e], ties to the even one. *)
Definition round_half_even (s : bool) (m : positive) (e : Z) : Z :=
  let a :=
    match e with
    | Z0 => Zpos m
    | Zpos _ => Z.shiftl (Zpos m) e
    | Zneg p =>
        let d := Z.shiftl 1 (Zpos p) in
        let q := Zpos m / d in
        let r := Zpos m mod d in
        match 2 * r ?= d with
        | Lt => q
        | Gt => q + 1
        | Eq => if Z.even q then q else q + 1
        end
    end in
  if s then - a else a.

(** [round(x)] with no digits argument: an [int], or no result where
    Python raises (infinities and NaN). *)
Definition round (x : float) : option Z :=
  match x with
  | S754_zero _ => Some 0
  | S754_finite s m e => Some (round_half_even s m e)
  | S754_infinity _ | S754_nan => None
  end.

End PyFloat.
Import PyFloat.

(** ** Strings: [str.lower] on the ASCII range *)

Definition lower_ascii (c : ascii) : ascii :=
  let n := nat_of_ascii c in
  if ((65 <=? n)%nat && (n <=? 90)%nat)%bool then ascii_of_nat (n + 32) else c.

Fixpoint lower (s : string) : string :=
  match s with
  | EmptyString => EmptyString
  | String c s' => String (lower_ascii c) (lower s')
  end.

(** ** The world: exceptions, the players file, the random generator *)

Inductive exn : Set :=
| FileNotFoundError
| JSONDecodeError
| AssertionError
| NameError
| AttributeError
| IndexError
| ValueError
| OverflowError.

Inductive result (A : Type) : Type :=
| Raise (e : exn)
| Return (a : A).
Arguments Raise {A} e.
Arguments Return {A} a.

(** One object of the ["STATS"] array of [players.json]. *)
Record Entry : Set := mkEntry {
  j_user_id : Z;
  j_money : Z;
  j_level : Z;
  j_league : string
}.

(** The file at [PLAYERS_PATH]: missing, present but not decodable as JSON,
    or a document [{"STATS": [...]}]. *)
Inductive File : Set :=
| Absent
| Garbage
| Document (STATS : list Entry).

(** The generator of module [random] is a tape of raw draws, read from the
    front. *)
Record World : Type := mkWorld {
  rng : nat -> Z;
  file : File
}.

Definition M (A : Type) : Type := World -> result A * World.

Definition ret {A} (a : A) : M A := fun w => (Return a, w).

Definition raise {A} (e : exn) : M A := fun w => (Raise e, w).

Definition bind {A B} (c : M A) (k : A -> M B) : M B :=
  fun w =>
    match c w with
    | (Return a, w') => k a w'
    | (Raise e, w') => (Raise e, w')
    end.

(** [try: c  except <handled>: h]: the world keeps what [c] did before it
    raised. *)
Definition try_except {A} (c : M A) (handled : exn -> bool) (h : M A) : M A :=
  fun w =>
    match c w with
    | (Raise e, w') => if handled e then h w' else (Raise e, w')
    | r => r
    end.

Declare Scope py_scope.
Delimit Scope py_scope with py.
Notation "x <- c ;; k" := (bind c (fun x => k))
  (at level 61, c at next level, right associativity) : py_scope.
Notation "' p <- c ;; k" := (bind c (fun x => let p := x in k))
  (at level 61, p pattern, c at next level, right associativity) : py_scope.
Notation "c ;; k" := (bind c (fun _ => k))
  (at level 61, right associativity) : py_scope.
Open Scope py_scope.

Definition get_file : M File := fun w => (Return (file w), w).

Definition put_file (f : File) : M unit :=
  fun w => (Return tt, {| rng := rng w; file := f |}).

(** [with open(PLAYERS_PATH, "r") as file: json.load(file)]; mode ["r+"]
    opens and decodes the same way. *)
Definition json_load : M (list Entry) :=
  f <- get_file ;;
  match f with
  | Absent => raise FileNotFoundError
  | Garbage => raise JSONDecodeError
  | Document stats => ret stats
  end.

(** [json.dump(players_data, file, indent=3)] over the whole file: with mode
    ["w"], or after [file.seek(0)] and followed by [file.truncate()]. *)
Definition json_dump (stats : list Entry) : M unit := put_file (Document stats).

(** [os.path.isfile(PLAYERS_PATH)] *)
Definition isfile : M bool :=
  f <- get_file ;;
  ret match f with Absent => false | _ => true end.

(** ** Module [random] *)

Module random.

(** The world after one draw was read off the tape. *)
Definition advance (w : World) : World :=
  {| rng := fun n => rng w (S n); file := file w |}.

Definition draw : M Z := fun w => (Return (rng w 0%nat), advance w).

(** The float [n / 2^53] for the 53 random bits [n = k mod 2^53]. *)
Definition unit_float (k : Z) : float :=
  binary_normalize prec emax (k mod 2 ^ 53) (-53) false.

(** [random.random()]: a multiple of [2^-53] in [[0, 1)]. *)
Definition random : M float :=
  k <- draw ;;
  ret (unit_float k).

(** [random.randint(a, b)]: an integer [N] with [a <= N <= b]. *)
Definition randint (a b : Z) : M Z :=
  k <- draw ;;
  ret (a + k mod (b - a + 1)).

(** [round(random.uniform(a, b), 2)] for bounds [a = a100/100] and
    [b = b100/100] of two decimals: [uniform] returns a float [N] with
    [a <= N <= b], and rounding it to two digits gives the double nearest
    to a decimal [k/100] with [a100 <= k <= b100]. The tape decides [k]. *)
Definition uniform_round2 (a100 b100 : Z) : M float :=
  k <- randint a100 b100 ;;
  ret (literal k 100).

(** [random.choice(seq)] *)
Definition choice {A} (seq : list A) : M A :=
  match seq with
  | [] => raise IndexError
  | _ :: _ =>
      k <- draw ;;
      match nth_error seq (Z.to_nat (k mod Z.of_nat (List.length seq))) with
      | Some x => ret x
      | None => raise IndexError
      end
  end.

End random.

(** ** [logic.py] *)

Definition RARITY_PROBABILITIES : list (string * float) :=
  [ ("Trash", literal 239 1000);
    ("Common", literal 25 100);
    ("Uncommon", literal 20 100);
    ("Rare", literal 10 100);
    ("Epic", literal 8 100);
    ("Supreme", literal 8 100);
    ("Mythical", literal 5 100);
    ("Legendary", literal 1 1000) ].

(** *** class [Loot] *)

Module Loot.

Record t : Set := mk {
  name : string;
  rarity : string;
  description : string;
  value : Z;
  xp_loot : Z;
  weight : float
}.

Definition __init__ (name rarity description : string)
    (value xp_loot : Z) (weight : float) : t :=
  {| name := name; rarity := rarity; description := description;
     value := value; xp_loot := xp_loot; weight := weight |}.

Definition set_value (self : t) (v : Z) : t :=
  {| name := name self; rarity := rarity self; description := description self;
     value := v; xp_loot := xp_loot self; weight := weight self |}.

Definition set_xp_loot (self : t) (v : Z) : t :=
  {| name := name self; rarity := rarity self; description := description self;
     value := value self; xp_loot := v; weight := weight self |}.

Definition set_weight (self : t) (v : float) : t :=
  {| name := name self; rarity := rarity self; description := description self;
     value := value self; xp_loot := xp_loot self; weight := v |}.

(** The three rollers store the roll in the object and return it; here
    they return the roll together with the updated object. Nothing in
    their [try] bodies can raise, so the [except] branches are left out. *)

Definition value_loot_algo (self : t) : M (Z * t) :=
  v <- (if rarity self =? "Common" then random.randint 10 50
        else if rarity self =? "Uncommon" then random.randint 51 150
        else if rarity self =? "Rare" then random.randint 151 500
        else if rarity self =? "Epic" then random.randint 501 1500
        else if rarity self =? "Supreme" then random.randint 1501 3000
        else if rarity self =? "Mythical" then random.randint 3001 5000
        else if rarity self =? "Legendary" then random.randint 5001 10000
        else if rarity self =? "Trash" then random.randint 1 9
        else ret 0)%string ;;
  ret (v, set_value self v).

Definition xp_loot_algo (self : t) : M (Z * t) :=
  v <- (if rarity self =? "Common" then random.randint 50 100
        else if rarity self =? "Uncommon" then random.randint 101 250
        else if rarity self =? "Rare" then random.randint 251 500
        else if rarity self =? "Epic" then random.randint 501 1000
        else if rarity self =? "Supreme" then random.randint 1001 2000
        else if rarity self =? "Mythical" then random.randint 2001 3500
        else if rarity self =? "Legendary" then random.randint 3501 5000
        else if rarity self =? "Trash" then ret 0
        else ret 0)%string ;;
  ret (v, set_xp_loot self v).

Definition weight_algo (self : t) : M (float * t) :=
  v <- (if rarity self =? "Common" then random.uniform_round2 100 500
        else if rarity self =? "Uncommon" then random.uniform_round2 510 1000
        else if rarity self =? "Rare" then random.uniform_round2 1010 2000
        else if rarity self =? "Epic" then random.uniform_round2 2010 3000
        else if rarity self =? "Supreme" then random.uniform_round2 3010 4000
        else if rarity self =? "Mythical" then random.uniform_round2 4010 5000
        else if rarity self =? "Legendary" then random.uniform_round2 5010 6000
        else if rarity self =? "Trash" then random.uniform_round2 10 90
        else ret zero)%string ;;
  ret (v, set_weight self v).

End Loot.

(** *** class [Player] *)

Module Player.

Record t : Set := mk {
  user_id : Z;
  money : Z;
  level : Z;
  league : string
}.

Definition __init__ (user_id money level : Z) (league : string) : t :=
  {| user_id := user_id; money := money; level := 0; league := league |}.

Definition set_league (self : t) (l : string) : t :=
  {| user_id := user_id self; money := money self; level := level self;
     league := l |}.

(** The first entry of the array with the given [user_id], where the
    [for ... break] loops of this file stop. *)
Fixpoint find_user (tag : Z) (stats : list Entry) : option Entry :=
  match stats with
  | [] => None
  | user :: rest =>
      if j_user_id user =? tag then Some user else find_user tag rest
  end.

Definition load_from_leaderboard (self : t) : M t :=
  try_except
    (players_data <- json_load ;;
     match find_user (user_id self) players_data with
     | Some user =>
         ret {| user_id := user_id self; money := j_money user;
                level := j_level user; league := j_league user |}
     | None => ret self
     end)
    (fun e => match e with
              | FileNotFoundError | JSONDecodeError => true
              | _ => false
              end)
    (ret self).

Definition level_check (self : t) : t :=
  let level := level self in
  set_league self
    (if (0 <? level) && (level <? 1000) then "Minnow"
     else if (1000 <=? level) && (level <? 3000) then "Guppy"
     else if (3000 <=? level) && (level <? 5000) then "Pond"
     else if (5000 <=? level) && (level <? 10000) then "River"
     else if (10000 <=? level) && (level <? 15000) then "Lake"
     else if (15000 <=? level) && (level <? 20000) then "Stream"
     else if (20000 <=? level) && (level <? 30000) then "Bay"
     else if (30000 <=? level) && (level <? 40000) then "Ocean"
     else if (40000 <=? level) && (level <? 50000) then "Deep Sea"
     else if (50000 <=? level) && (level <? 70000) then "Trophy"
     else if (70000 <=? level) && (level <? 100000) then "Champion"
     else if 100000 <=? level then "Legendary"
     else "Unranked").

(** The update loop of [save_to_leaderboard]: the first entry with the
    player's id takes the player's fields; with no such entry the new one
    is appended. *)
Fixpoint upsert (self : t) (stats : list Entry) : list Entry :=
  match stats with
  | [] =>
      [ {| j_user_id := user_id self; j_money := money self;
           j_level := level self; j_league := league self |} ]
  | user :: rest =>
      if j_user_id user =? user_id self
      then {| j_user_id := j_user_id user; j_money := money self;
              j_level := level self; j_league := league self |} :: rest
      else user :: upsert self rest
  end.

Definition save_to_leaderboard (self : t) : M unit :=
  exists_ <- isfile ;;
  (if negb exists_ then json_dump [] else ret tt) ;;
  players_data <- json_load ;;
  json_dump (upsert self players_data).

End Player.

(** *** Ledger administration *)

(** The loop of [reset_fisher]: [None] where the function returns [None]
    from inside the loop or from its [else], the changed array where it
    goes on to write. *)
Fixpoint reset_loop (player_tag : Z) (state : string) (stats : list Entry)
  : option (list Entry) :=
  match stats with
  | [] => None
  | user :: rest =>
      if j_user_id user =? player_tag then
        if (lower state =? "money")%string then
          Some ({| j_user_id := j_user_id user; j_money := 0;
                   j_level := j_level user; j_league := j_league user |} :: rest)
        else if ((lower state =? "level") || (lower state =? "levels"))%string then
          Some ({| j_user_id := j_user_id user; j_money := j_money user;
                   j_level := 0; j_league := j_league user |} :: rest)
        else None
      else option_map (cons user) (reset_loop player_tag state rest)
  end.

(** [None | bool] results: [Some true] is [True], [None] is [None]. *)
Definition reset_fisher (player_tag : Z) (state : string) : M (option bool) :=
  try_except
    (players_data <- json_load ;;
     match reset_loop player_tag state players_data with
     | None => ret None
     | Some players_data' => json_dump players_data' ;; ret (Some true)
     end)
    (fun _ => true)
    (ret None).

Definition delete_all_players : M (option bool) :=
  try_except
    (_ <- json_load ;;
     json_dump [] ;;
     ret (Some true))
    (fun _ => true)
    (ret None).

(** *** The catalog *)

Definition CATCHES : list Loot.t :=
  [
    Loot.__init__ "Plastic Bag" "Trash"
      "A discarded plastic bag floating in the water." 0 0 zero;
    Loot.__init__ "Old Shoe" "Trash"
      "An old, worn-out shoe that's been thrown into the water." 0 0 zero;
    Loot.__init__ "Broken Bottle" "Trash"
      "A shattered glass bottle, lost and forgotten." 0 0 zero;
    Loot.__init__ "Rusty Can" "Trash"
      "A rusty can, once holding something edible." 0 0 zero;
    Loot.__init__ "Fishing Line" "Trash"
      "A tangled mess of old fishing line." 0 0 zero;
    Loot.__init__ "Wooden Plank" "Trash"
      "A piece of driftwood, worn smooth by the water." 0 0 zero;
    Loot.__init__ "Empty Can" "Trash"
      "An empty can, discarded and forgotten." 0 0 zero;
    Loot.__init__ "Discarded Net" "Trash"
      "An old fishing net, tangled and useless." 0 0 zero;
    Loot.__init__ "Torn Bag" "Trash"
      "A bag ripped apart and left to float." 0 0 zero;
    Loot.__init__ "Worn Tire" "Trash"
      "A worn-out tire, floating aimlessly." 0 0 zero;
    Loot.__init__ "Goldfish" "Common"
      "A small, shiny goldfish. Commonly found in ponds." 0 0 zero;
    Loot.__init__ "Bluegill" "Common"
      "A small, panfish with a blueish tint, found in freshwater lakes." 0 0 zero;
    Loot.__init__ "Sunfish" "Common"
      "A small, colorful fish often found in ponds and lakes." 0 0 zero;
    Loot.__init__ "Perch" "Common"
      "A striped fish found in lakes and rivers." 0 0 zero;
    Loot.__init__ "Tilapia" "Common"
      "A freshwater fish known for its mild flavor." 0 0 zero;
    Loot.__init__ "Carp" "Common"
      "A large fish found in many rivers and ponds." 0 0 zero;
    Loot.__init__ "Bass" "Common"
      "A popular sport fish found in lakes and rivers." 0 0 zero;
    Loot.__init__ "Trout" "Common"
      "A common fish found in clear, cold streams and rivers." 0 0 zero;
    Loot.__init__ "Catfish" "Common"
      "A bottom-dwelling fish with whisker-like barbels." 0 0 zero;
    Loot.__init__ "Pike" "Common"
      "A long, predatory fish found in freshwater lakes." 0 0 zero;
    Loot.__init__ "Catfish" "Uncommon"
      "A large fish with a whiskery face. Often found in rivers." 0 0 zero;
    Loot.__init__ "Largemouth Bass" "Uncommon"
      "A predatory fish known for its large mouth and fighting spirit." 0 0 zero;
    Loot.__init__ "Walleye" "Uncommon"
      "A freshwater fish with large eyes, known for its sharp teeth." 0 0 zero;
    Loot.__init__ "Smallmouth Bass" "Uncommon"
      "A fish known for its fighting ability and small mouth." 0 0 zero;
    Loot.__init__ "Northern Pike" "Uncommon"
      "A predatory fish with sharp teeth and a long body." 0 0 zero;
    Loot.__init__ "Paddlefish" "Uncommon"
      "A fish known for its long, paddle-like snout." 0 0 zero;
    Loot.__init__ "Muskellunge" "Uncommon"
      "A large, elusive predator found in North American lakes." 0 0 zero;
    Loot.__init__ "Steelhead Trout" "Uncommon"
      "A migratory fish known for its strength and fighting ability." 0 0 zero;
    Loot.__init__ "Sauger" "Uncommon"
      "A fish closely related to the walleye, found in rivers and lakes." 0 0 zero;
    Loot.__init__ "Lake Sturgeon" "Uncommon"
      "A prehistoric fish known for its bony plates and long lifespan." 0 0 zero;
    Loot.__init__ "Rainbow Trout" "Rare"
      "A colorful trout with vibrant stripes. A rare catch in clear lakes." 0 0 zero;
    Loot.__init__ "Arapaima" "Rare"
      "A giant fish native to the Amazon River, known for its size." 0 0 zero;
    Loot.__init__ "Tiger Trout" "Rare"
      "A hybrid trout known for its striking pattern." 0 0 zero;
    Loot.__init__ "Golden Dorado" "Rare"
      "A powerful predator with a golden sheen." 0 0 zero;
    Loot.__init__ "Grouper" "Rare"
      "A large fish with a robust body, found in tropical waters." 0 0 zero;
    Loot.__init__ "Rohu" "Rare"
      "A large freshwater fish native to South Asia." 0 0 zero;
    Loot.__init__ "Napoleon Wrasse" "Rare"
      "A large, colorful fish found in the Indo-Pacific region." 0 0 zero;
    Loot.__init__ "Red Drum" "Rare"
      "A prized fish known for its distinctive red coloration." 0 0 zero;
    Loot.__init__ "Swordfish" "Rare"
      "A large fish known for its long, sword-like bill." 0 0 zero;
    Loot.__init__ "Bluefin Tuna" "Rare"
      "A large, fast tuna known for its blue coloration and high value." 0 0 zero;
    Loot.__init__ "Goliath Grouper" "Epic"
      "A massive, intimidating fish. Known for its strength and size." 0 0 zero;
    Loot.__init__ "Manta Ray" "Epic"
      "A large, graceful ray known for its wide wingspan." 0 0 zero;
    Loot.__init__ "Giant Squid" "Epic"
      "A colossal squid known for its size and elusive nature." 0 0 zero;
    Loot.__init__ "Koi Fish" "Epic"
      "A large ornamental fish known for its vibrant colors and patterns." 0 0 zero;
    Loot.__init__ "Great White Shark" "Epic"
      "A formidable predator known for its size and power." 0 0 zero;
    Loot.__init__ "Orca" "Epic"
      "A powerful marine mammal known for its intelligence and hunting skills." 0 0 zero;
    Loot.__init__ "Hammerhead Shark" "Epic"
      "A shark known for its distinctive hammer-shaped head." 0 0 zero;
    Loot.__init__ "Beluga Sturgeon" "Epic"
      "A rare sturgeon known for its large size and valuable caviar." 0 0 zero;
    Loot.__init__ "Blue Marlin" "Epic"
      "A large, fast fish known for its impressive bill and fighting ability." 0 0 zero;
    Loot.__init__ "Megalodon Tooth" "Epic"
      "A fossilized tooth from the ancient and massive Megalodon shark." 0 0 zero;
    Loot.__init__ "BoomFish" "Supreme"
      "BadaBOOOM." 0 0 zero;
    Loot.__init__ "Electra" "Supreme"
      "A mythical fish said to harness the power of lightning." 0 0 zero;
    Loot.__init__ "Inferno Fish" "Supreme"
      "A fish that supposedly burns with the fire of a thousand suns." 0 0 zero;
    Loot.__init__ "Frost Dragon Fish" "Supreme"
      "A fish from the icy realms, known for its freezing breath." 0 0 zero;
    Loot.__init__ "Celestial Koi" "Supreme"
      "A koi with scales that sparkle like the night sky." 0 0 zero;
    Loot.__init__ "Tornado Fish" "Supreme"
      "A fish said to create whirlwinds in the water." 0 0 zero;
    Loot.__init__ "Vortex Eel" "Supreme"
      "An eel known for its ability to create whirlpools." 0 0 zero;
    Loot.__init__ "Phantom Ray" "Supreme"
      "A ray that appears and disappears like a ghost." 0 0 zero;
    Loot.__init__ "Storm Shark" "Supreme"
      "A shark known to accompany thunderstorms." 0 0 zero;
    Loot.__init__ "Phoenix Fish" "Supreme"
      "A mythical fish said to rise from the ashes." 0 0 zero;
    Loot.__init__ "Diamond Fish" "Mythical"
      "That is Pricy." 0 0 zero;
    Loot.__init__ "Leviathan" "Mythical"
      "A colossal sea creature from ancient legends." 0 0 zero;
    Loot.__init__ "Kraken" "Mythical"
      "A giant squid-like creature feared by sailors." 0 0 zero;
    Loot.__init__ "Hydra" "Mythical"
      "A multi-headed serpent with regenerative abilities." 0 0 zero;
    Loot.__init__ "Triton's Trident Fish" "Mythical"
      "A fish said to be blessed by the god of the sea." 0 0 zero;
    Loot.__init__ "Mermaid's Tear" "Mythical"
      "A gem said to be the tear of a mermaid, found in the sea." 0 0 zero;
    Loot.__init__ "Eldritch Whale" "Mythical"
      "A whale from deep, dark corners of the ocean." 0 0 zero;
    Loot.__init__ "Abyssal Fish" "Mythical"
      "A fish from the deepest, darkest depths of the sea." 0 0 zero;
    Loot.__init__ "Celestial Jellyfish" "Mythical"
      "A glowing jellyfish said to be a gift from the stars." 0 0 zero;
    Loot.__init__ "Astral Shark" "Mythical"
      "A shark with a celestial pattern across its body." 0 0 zero;
    Loot.__init__ "Dragonfish" "Legendary"
      "A mythical fish with scales that shimmer like dragon scales. Extremely rare and valuable." 0 0 zero;
    Loot.__init__ "Kraken" "Legendary"
      "A legendary sea monster known for its immense size and power." 0 0 zero;
    Loot.__init__ "Poseidon's Trident" "Legendary"
      "A powerful trident said to be wielded by the god of the sea." 0 0 zero;
    Loot.__init__ "Phoenix Fish" "Legendary"
      "A fish that rises from the ashes, said to bring good fortune." 0 0 zero;
    Loot.__init__ "Leviathan" "Legendary"
      "An ancient sea creature of immense size and strength." 0 0 zero;
    Loot.__init__ "Golden Sea Serpent" "Legendary"
      "A rare and majestic sea serpent covered in golden scales." 0 0 zero;
    Loot.__init__ "Eldritch Kraken" "Legendary"
      "A monstrous kraken from the darkest depths of the ocean." 0 0 zero;
    Loot.__init__ "Celestial Dragonfish" "Legendary"
      "A dragonfish with celestial powers and a mythical aura." 0 0 zero;
    Loot.__init__ "Titanic Shark" "Legendary"
      "An enormous shark that rules the oceans with unmatched strength." 0 0 zero;
    Loot.__init__ "Mystic Mermaid" "Legendary"
      "A mythical mermaid with unparalleled beauty and magical abilities." 0 0 zero  ].

(** *** [fishing] *)

(** The walk over [RARITY_PROBABILITIES.items()]: [None] when the loop ends
    without binding [selected_rarity]. *)
Fixpoint select_rarity (items : list (string * float))
    (rand cumulative_prob : float) : option string :=
  match items with
  | [] => None
  | (rarity, prob) :: rest =>
      let cumulative_prob := add cumulative_prob prob in
      if ltb rand cumulative_prob then Some rarity
      else select_rarity rest rand cumulative_prob
  end.

(** The comprehension
    [[loot for loot in catches if loot.rarity == selected_rarity]]. It
    reads the name [selected_rarity] once for each item of [catches]: when
    the loop bound no rarity, an empty catalog still gives the empty list,
    and a first item raises [NameError] (on interpreters that inline
    comprehensions, its subclass [UnboundLocalError]). *)
Definition filter_catches (selected_rarity : option string)
    (catches : list Loot.t) : M (list Loot.t) :=
  match selected_rarity, catches with
  | Some selected_rarity, _ =>
      ret (filter (fun loot => (Loot.rarity loot =? selected_rarity)%string)
             catches)
  | None, [] => ret []
  | None, _ :: _ => raise NameError
  end.

Definition fishing (catches : list Loot.t) : M (option Loot.t) :=
  let total_prob := fold_left add (map snd RARITY_PROBABILITIES) zero in
  if negb (ltb (abs (sub total_prob one)) (literal 1 1000000))
  then raise AssertionError
  else
    rand <- random.random ;;
    filtered_catches <-
      filter_catches (select_rarity RARITY_PROBABILITIES rand zero) catches ;;
    match filtered_catches with
    | [] => ret None
    | _ :: _ => loot <- random.choice filtered_catches ;; ret (Some loot)
    end.

(** ** [bot.py]: the [fish] command *)

(** What the command sends back: the embed with the catch, or the
    "No catch available" message. *)
Inductive Reply : Set :=
| Embed (catch : Loot.t) (catch_weight : float) (catch_value catch_xp : Z)
| NoCatchAvailable.

(** A method call on a value that may be [None]. *)
Definition call {A} (obj : option Loot.t) (method : Loot.t -> M (A * Loot.t))
  : M (A * option Loot.t) :=
  match obj with
  | None => raise AttributeError
  | Some self => '(a, self') <- method self ;; ret (a, Some self')
  end.

(** [round(x)] as a statement. *)
Definition round_int (x : float) : M Z :=
  match PyFloat.round x with
  | Some n => ret n
  | None =>
      match x with
      | S754_nan => raise ValueError
      | _ => raise OverflowError
      end
  end.

(** The expression bound to [catch_value]. *)
Definition reward (xp : Z) (catch_weight : float) : float :=
  div (mul (of_int xp) catch_weight) (of_int 2).

Definition credit (self : Player.t) (catch_xp catch_value : Z) : Player.t :=
  {| Player.user_id := Player.user_id self;
     Player.money := Player.money self + catch_value;
     Player.level := Player.level self + catch_xp;
     Player.league := Player.league self |}.

(** The handler calls [fishing(CATCHES)]; the catalog is a parameter here,
    and the program runs [fish CATCHES]. *)
Definition fish (catches : list Loot.t) (user_id : Z) : M Reply :=
  let player_instance := Player.__init__ user_id 0 0 "" in
  catch <- fishing catches ;;
  '(catch_weight, catch) <- call catch Loot.weight_algo ;;
  '(xp, catch) <- call catch Loot.xp_loot_algo ;;
  catch_value <- round_int (reward xp catch_weight) ;;
  '(catch_xp, catch) <- call catch Loot.value_loot_algo ;;
  match catch with
  | Some catch =>
      player_instance <- Player.load_from_leaderboard player_instance ;;
      let player_instance := credit player_instance catch_xp catch_value in
      let player_instance := Player.level_check player_instance in
      Player.save_to_leaderboard player_instance ;;
      ret (Embed catch catch_weight catch_value catch_xp)
  | None => ret NoCatchAvailable
  end.

(** The commands [levels] and [money] read a player the same way: a new
    [Player(user_id=user_id)], then [load_from_leaderboard]. *)
Definition load_player (user_id : Z) : M Player.t :=
  Player.load_from_leaderboard (Player.__init__ user_id 0 0 "").

(** ** Vocabulary of the statements *)

(** A generator whose first draws are the listed ones. *)
Definition tape (l : list Z) : nat -> Z := fun n => nth n l 0.

(** What a run returned, if it returned. *)
Definition returned {A} (r : result A * World) : option A :=
  match fst r with
  | Return a => Some a
  | Raise _ => None
  end.

(** The ledger holds a record for the player. *)
Definition has_player (tag : Z) (f : File) : bool :=
  match f with
  | Document stats =>
      match Player.find_user tag stats with
      | Some _ => true
      | None => false
      end
  | Absent | Garbage => false
  end.

(** The league [level_check] gives to a player with that much experience. *)
Definition rank_of (experience : Z) : string :=
  Player.league
    (Player.level_check
       {| Player.user_id := 0; Player.money := 0;
          Player.level := experience; Player.league := "" |}).

(** The field names [reset_fisher] acts on. *)
Definition valid_state (state : string) : bool :=
  ((lower state =? "money") || (lower state =? "level")
   || (lower state =? "levels"))%string.

(** The running sum of the first [n] probabilities, as the walk of
    [fishing] accumulates it. *)
Definition cumulative (items : list (string * float)) (n : nat) : float :=
  fold_left add (map snd (firstn n items)) zero.

(** The test of the [assert] in [fishing]. *)
Definition sums_to_one (probabilities : list (string * float)) : bool :=
  ltb (abs (sub (fold_left add (map snd probabilities) zero) one))
    (literal 1 1000000).

(** The catalog entries of one rarity, as [fishing] filters them. *)
Definition candidates (selected_rarity : string) (catches : list Loot.t)
  : list Loot.t :=
  filter (fun loot => (Loot.rarity loot =? selected_rarity)%string) catches.

(** The array of a ledger file; a missing file counts as an empty array. *)
Definition stats_of (f : File) : list Entry :=
  match f with
  | Document stats => stats
  | Absent | Garbage => []
  end.

(** The player that [Player(user_id=user_id)] followed by
    [load_from_leaderboard] reads off a ledger file. *)
Definition loaded (user_id : Z) (f : File) : Player.t :=
  match Player.find_user user_id (stats_of f) with
  | Some user =>
      {| Player.user_id := user_id; Player.money := j_money user;
         Player.level := j_level user; Player.league := j_league user |}
  | None => Player.__init__ user_id 0 0 ""
  end.

(** [P] holds of every integer from [lo] to [hi], checked one by one. *)
Definition all_between (lo hi : Z) (P : Z -> bool) : bool :=
  forallb (fun i => P (lo + Z.of_nat i)) (seq 0 (Z.to_nat (hi - lo + 1))).

(** ** More of [logic.py]: [delete_player] and [sort_leaderboard] *)

(** Python's [==] on two objects of the array. *)
Definition entry_eqb (a b : Entry) : bool :=
  (j_user_id a =? j_user_id b) && (j_money a =? j_money b)
  && (j_level a =? j_level b) && (j_league a =? j_league b)%string.

(** [list.remove(x)]: the list without its first item equal to [x];
    [None] where Python raises [ValueError] for want of one. *)
Fixpoint list_remove (x : Entry) (l : list Entry) : option (list Entry) :=
  match l with
  | [] => None
  | y :: rest =>
      if entry_eqb y x then Some rest
      else option_map (cons y) (list_remove x rest)
  end.

Definition delete_player (player_tag : Z) : M (option bool) :=
  try_except
    (players_data <- json_load ;;
     match Player.find_user player_tag players_data with
     | Some user =>
         match list_remove user players_data with
         | Some players_data' => json_dump players_data' ;; ret (Some true)
         | None => raise ValueError
         end
     | None => ret None
     end)
    (fun _ => true)
    (ret None).

(** [list.sort(key=lambda x: x[1], reverse=True)] is stable: it gives the
    one arrangement in descending order of the key that keeps items of
    equal key in the order they had. It is computed here by insertion: an
    item goes before the first later item whose key is not greater. *)
Fixpoint insert_desc (x : Z * Z) (l : list (Z * Z)) : list (Z * Z) :=
  match l with
  | [] => [x]
  | y :: rest =>
      if snd x <? snd y then y :: insert_desc x rest else x :: y :: rest
  end.

Definition sort_desc (l : list (Z * Z)) : list (Z * Z) :=
  fold_right insert_desc [] l.

(** The file is read outside any [try]. *)
Definition sort_leaderboard (state : string) : M (list (Z * Z)) :=
  players_data <- json_load ;;
  if (lower state =? "money")%string then
    ret (sort_desc (map (fun user => (j_user_id user, j_money user)) players_data))
  else if ((lower state =? "level") || (lower state =? "levels"))%string then
    ret (sort_desc (map (fun user => (j_user_id user, j_level user)) players_data))
  else ret [].

(** ** More of [bot.py]: the [leaderboard] command *)

(** [str(n)] of an integer, as f-strings print it. *)
Definition str (n : Z) : string := NilZero.string_of_int (Z.to_int n).

Definition upper_ascii (c : ascii) : ascii :=
  let n := nat_of_ascii c in
  if ((97 <=? n)%nat && (n <=? 122)%nat)%bool then ascii_of_nat (n - 32) else c.

(** [str.capitalize] on the ASCII range. *)
Definition capitalize (s : string) : string :=
  match s with
  | EmptyString => EmptyString
  | String c s' => String (upper_ascii c) (lower s')
  end.

Definition newline : string := String (ascii_of_nat 10) EmptyString.

(** What a command sends: a plain message, or an embed with its title,
    description and fields. *)
Inductive Message : Set :=
| Plain (content : string)
| Rich (title description : string) (fields : list (string * string)).

(** The loop over [enumerate(sorted_leaderboard, start=1)]; [unit_] is
    what follows the number on a line, ["$**"] or [" XP**"]. *)
Fixpoint leaderboard_str (unit_ : string) (rank : Z) (sorted : list (Z * Z))
  : string :=
  match sorted with
  | [] => ""
  | (user_id, x) :: rest =>
      (str rank ++ ". <@" ++ str user_id ++ "> - **" ++ str x ++ unit_
       ++ newline)
      ++ leaderboard_str unit_ (rank + 1) rest
  end.

Definition leaderboard_embed (state leaderboard_str : string) : Message :=
  Rich "Leaderboard"
    ("Here is the current leaderboard sorted by " ++ capitalize state ++ " : ")
    [("Top Players",
      match leaderboard_str with
      | EmptyString => "No data available"
      | _ => leaderboard_str
      end)].

Definition leaderboard (state : string) : M Message :=
  sorted_leaderboard <- sort_leaderboard state ;;
  if (lower state =? "money")%string then
    ret (leaderboard_embed state (leaderboard_str "$**" 1 sorted_leaderboard))
  else if ((lower state =? "level") || (lower state =? "levels"))%string then
    ret (leaderboard_embed state (leaderboard_str " XP**" 1 sorted_leaderboard))
  else ret (Plain "Invalid filter. Please use 'money' or 'level'.").

(** ** Vocabulary of the further statements *)

(** The ids of the array, in order. *)
Definition ids (stats : list Entry) : list Z := map j_user_id stats.

(** The eight rarities of the probability table. *)
Definition rarities : list string := map fst RARITY_PROBABILITIES.

(** The array without its first entry of the given id. *)
Fixpoint drop_user (tag : Z) (stats : list Entry) : list Entry :=
  match stats with
  | [] => []
  | user :: rest =>
      if j_user_id user =? tag then rest else user :: drop_user tag rest
  end.

(** The entry that stands for a player object in the array. *)
Definition entry_of (self : Player.t) : Entry :=
  {| j_user_id := Player.user_id self; j_money := Player.money self;
     j_level := Player.level self; j_league := Player.league self |}.

(** The thirteen leagues, lowest first, and the experience at which each
    one after the first begins. *)
Definition leagues : list string :=
  ["Unranked"; "Minnow"; "Guppy"; "Pond"; "River"; "Lake"; "Stream"; "Bay";
   "Ocean"; "Deep Sea"; "Trophy"; "Champion"; "Legendary"].

Definition thresholds : list Z :=
  [1; 1000; 3000; 5000; 10000; 15000; 20000; 30000; 40000; 50000; 70000;
   100000].

(** How many thresholds an experience has reached. *)
Definition reached (experience : Z) : nat :=
  List.length (filter (fun t => t <=? experience) thresholds).

(** The place of a league in a list, the length of the list when it is
    not there. *)
Fixpoint index_of (l : string) (ls : list string) : nat :=
  match ls with
  | [] => 0%nat
  | x :: rest => if (x =? l)%string then 0%nat else S (index_of l rest)
  end.

(** A float that is not below zero: its sign bit is clear, or it is a zero
    or NaN. *)
Definition not_negative (x : float) : bool :=
  match x with
  | S754_zero _ | S754_nan => true
  | S754_finite s _ _ | S754_infinity s => negb s
  end.

(** * Progression rules *)

Lemma level_check_league (self : Player.t) :
  Player.league (Player.level_check self) = rank_of (Player.level self).
Proof. reflexivity. Qed.

Lemma level_check_keeps (self : Player.t) :
  Player.user_id (Player.level_check self) = Player.user_id self
  /\ Player.money (Player.level_check self) = Player.money self
  /\ Player.level (Player.level_check self) = Player.level self.
Proof. repeat split. Qed.

Lemma rank_of_nonpositive (e : Z) : e <= 0 -> rank_of e = "Unranked".
Proof.
  intros He. unfold rank_of, Player.level_check, Player.set_league. cbn.
  replace (0 <? e) with false by (symmetry; apply Z.ltb_ge; exact He).
  repeat match goal with
         | |- context [?a <=? e] =>
             replace (a <=? e) with false by (symmetry; apply Z.leb_gt; lia)
         end.
  reflexivity.
Qed.

(** C7. [level_check] is exact at the thresholds: experience 0 is
    "Unranked", 999 "Minnow", 1000 "Guppy", 99999 "Champion", 100000
    "Legendary", and every negative experience is "Unranked"; the league a
    player gets depends on the level alone. *)
Theorem level_check_boundaries :
  rank_of 0 = "Unranked"
  /\ rank_of 999 = "Minnow"
  /\ rank_of 1000 = "Guppy"
  /\ rank_of 99999 = "Champion"
  /\ rank_of 100000 = "Legendary"
  /\ (forall e, e < 0 -> rank_of e = "Unranked")
  /\ (forall self,
         Player.league (Player.level_check self) = rank_of (Player.level self)).
Proof.
  repeat split.
  intros e He. apply rank_of_nonpositive. lia.
Qed.

Lemma level_check_boundaries_witness : -5 < 0 /\ rank_of (-5) = "Unranked".
Proof.
  split; [lia |].
  apply (proj1 (proj2 (proj2 (proj2 (proj2 (proj2 level_check_boundaries)))))).
  lia.
Defined.

(** * The player record *)

Lemma load_from_leaderboard_run (self : Player.t) (w : World) :
  Player.load_from_leaderboard self w =
  (Return
     match file w with
     | Document stats =>
         match Player.find_user (Player.user_id self) stats with
         | Some user =>
             {| Player.user_id := Player.user_id self;
                Player.money := j_money user;
                Player.level := j_level user;
                Player.league := j_league user |}
         | None => self
         end
     | Absent | Garbage => self
     end, w).
Proof.
  unfold Player.load_from_leaderboard, try_except, bind, json_load, get_file,
    raise, ret.
  cbn. destruct (file w) as [| | stats]; try reflexivity.
  destruct (Player.find_user (Player.user_id self) stats); reflexivity.
Qed.

(** C10. The constructor keeps the id, the money and the league it is
    given and sets the level to 0 whatever level it is given; after loading,
    the level is the one the ledger stores for the id, and 0 when it stores
    none. *)
Theorem init_discards_level (user_id money level : Z) (league : string) :
  Player.level (Player.__init__ user_id money level league) = 0
  /\ Player.user_id (Player.__init__ user_id money level league) = user_id
  /\ Player.money (Player.__init__ user_id money level league) = money
  /\ Player.league (Player.__init__ user_id money level league) = league
  /\ (forall w,
         option_map Player.level
           (returned
              (Player.load_from_leaderboard
                 (Player.__init__ user_id money level league) w))
         = Some match file w with
                | Document stats =>
                    match Player.find_user user_id stats with
                    | Some user => j_level user
                    | None => 0
                    end
                | Absent | Garbage => 0
                end).
Proof.
  repeat split.
  intros w. unfold returned. rewrite load_from_leaderboard_run. cbn.
  destruct (file w) as [| | stats]; try reflexivity.
  destruct (Player.find_user user_id stats); reflexivity.
Qed.

(** C4, as the code has it. Loading a player the ledger does not hold never
    fails and gives money 0, level 0 and the constructor's default league,
    the empty string; the world is left as it was. *)
Theorem load_absent_player_default (w : World) (user_id : Z) :
  has_player user_id (file w) = false ->
  load_player user_id w =
  (Return {| Player.user_id := user_id; Player.money := 0;
             Player.level := 0; Player.league := "" |}, w).
Proof.
  intros Habs. unfold load_player. rewrite load_from_leaderboard_run.
  unfold has_player in Habs. cbn.
  destruct (file w) as [| | stats]; try reflexivity.
  destruct (Player.find_user user_id stats); [discriminate | reflexivity].
Qed.

Lemma load_absent_player_default_witness :
  load_player 42
    {| rng := tape []; file := Document [mkEntry 7 120 25 "Minnow"] |} =
  (Return {| Player.user_id := 42; Player.money := 0;
             Player.level := 0; Player.league := "" |},
   {| rng := tape []; file := Document [mkEntry 7 120 25 "Minnow"] |}).
Proof.
  apply (load_absent_player_default
           {| rng := tape []; file := Document [mkEntry 7 120 25 "Minnow"] |} 42).
  reflexivity.
Defined.

(** C4, as the claim has it, fails on the empty ledger: the loaded league
    is not "Unranked". *)
Lemma load_absent_player_not_unranked :
  has_player 42 (Document []) = false
  /\ ~ option_map Player.league
         (returned (load_player 42 {| rng := tape []; file := Document [] |}))
       = Some "Unranked".
Proof.
  split; [reflexivity |].
  cbn. intros H. discriminate H.
Qed.

(** * Ledger administration *)

Lemma reset_fisher_run (player_tag : Z) (state : string) (w : World) :
  reset_fisher player_tag state w =
  match file w with
  | Document stats =>
      match reset_loop player_tag state stats with
      | Some stats' =>
          (Return (Some true), {| rng := rng w; file := Document stats' |})
      | None => (Return None, w)
      end
  | Absent | Garbage => (Return None, w)
  end.
Proof.
  unfold reset_fisher, try_except, bind, json_load, json_dump, put_file,
    get_file, raise, ret.
  cbn. destruct (file w) as [| | stats]; try reflexivity.
  destruct (reset_loop player_tag state stats); reflexivity.
Qed.

Lemma reset_loop_unknown_player (player_tag : Z) (state : string)
    (stats : list Entry) :
  Player.find_user player_tag stats = None ->
  reset_loop player_tag state stats = None.
Proof.
  induction stats as [| user rest IH]; intros Hfind; [reflexivity |].
  cbn in *. destruct (j_user_id user =? player_tag); [discriminate |].
  rewrite (IH Hfind). reflexivity.
Qed.

Lemma reset_loop_invalid_state (player_tag : Z) (state : string)
    (stats : list Entry) :
  valid_state state = false ->
  reset_loop player_tag state stats = None.
Proof.
  unfold valid_state. intros Hstate.
  apply orb_false_iff in Hstate as [Hstate Hlevels].
  apply orb_false_iff in Hstate as [Hmoney Hlevel].
  induction stats as [| user rest IH]; [reflexivity |].
  cbn. rewrite Hmoney, Hlevel, Hlevels, IH.
  destruct (j_user_id user =? player_tag); reflexivity.
Qed.

Lemma reset_loop_level (player_tag : Z) (stats : list Entry) (user : Entry) :
  Player.find_user player_tag stats = Some user ->
  exists stats',
    reset_loop player_tag "level" stats = Some stats'
    /\ Player.find_user player_tag stats' =
       Some {| j_user_id := j_user_id user; j_money := j_money user;
               j_level := 0; j_league := j_league user |}.
Proof.
  induction stats as [| head rest IH]; intros Hfind; [discriminate |].
  cbn in Hfind. cbn [reset_loop].
  destruct (j_user_id head =? player_tag) eqn:Hid.
  - injection Hfind as ->. eexists. split; [reflexivity |].
    cbn. rewrite Hid. reflexivity.
  - destruct (IH Hfind) as (stats' & Hloop & Hstored).
    exists (head :: stats'). rewrite Hloop. split; [reflexivity |].
    cbn. rewrite Hid. exact Hstored.
Qed.

(** C6, as the code has it. [reset_fisher] has one failure result, [None]:
    it returns it, and writes nothing, for a player the ledger does not
    hold, whatever the field, and for a field name that is none of "money",
    "level" and "levels" in any letter case, whoever the player. *)
Theorem reset_fisher_failure (w : World) (player_tag : Z) (state : string) :
  (has_player player_tag (file w) = false ->
   reset_fisher player_tag state w = (Return None, w))
  /\ (valid_state state = false ->
      reset_fisher player_tag state w = (Return None, w)).
Proof.
  rewrite reset_fisher_run. unfold has_player.
  split; intros H; destruct (file w) as [| | stats]; try reflexivity.
  - destruct (Player.find_user player_tag stats) eqn:Hfind; [discriminate |].
    rewrite (reset_loop_unknown_player _ state _ Hfind). reflexivity.
  - rewrite (reset_loop_invalid_state player_tag _ stats H). reflexivity.
Qed.

Lemma reset_fisher_failure_witness :
  reset_fisher 1 "money"
    {| rng := tape []; file := Document [mkEntry 7 120 25 "Minnow"] |} =
  (Return None,
   {| rng := tape []; file := Document [mkEntry 7 120 25 "Minnow"] |})
  /\ reset_fisher 7 "xyz"
       {| rng := tape []; file := Document [mkEntry 7 120 25 "Minnow"] |} =
     (Return None,
      {| rng := tape []; file := Document [mkEntry 7 120 25 "Minnow"] |}).
Proof.
  split.
  - apply (proj1 (reset_fisher_failure
                    {| rng := tape [];
                       file := Document [mkEntry 7 120 25 "Minnow"] |}
                    1 "money")).
    reflexivity.
  - apply (proj2 (reset_fisher_failure
                    {| rng := tape [];
                       file := Document [mkEntry 7 120 25 "Minnow"] |}
                    7 "xyz")).
    reflexivity.
Defined.

(** C6, as the claim has it, fails: with player 7 in the ledger and player
    1 not, the reset of "money" for 1 and the reset of "xyz" for 7 return
    the same value, so the two failures are not told apart. *)
Lemma reset_fisher_failures_coincide :
  has_player 1 (Document [mkEntry 7 120 25 "Minnow"]) = false
  /\ has_player 7 (Document [mkEntry 7 120 25 "Minnow"]) = true
  /\ ~ fst (reset_fisher 1 "money"
              {| rng := tape [];
                 file := Document [mkEntry 7 120 25 "Minnow"] |})
       <> fst (reset_fisher 7 "xyz"
                 {| rng := tape [];
                    file := Document [mkEntry 7 120 25 "Minnow"] |}).
Proof.
  repeat split. intros Hdiff. apply Hdiff. reflexivity.
Qed.

(** C2, on the code. Resetting the level of a player the ledger holds
    succeeds and stores level 0 with the league the record had before: the
    league is not recomputed. *)
Theorem reset_level_keeps_league (g : nat -> Z) (player_tag : Z)
    (stats : list Entry) (user : Entry) :
  Player.find_user player_tag stats = Some user ->
  exists stats',
    reset_fisher player_tag "level" {| rng := g; file := Document stats |} =
    (Return (Some true), {| rng := g; file := Document stats' |})
    /\ Player.find_user player_tag stats' =
       Some {| j_user_id := j_user_id user; j_money := j_money user;
               j_level := 0; j_league := j_league user |}.
Proof.
  intros Hfind.
  destruct (reset_loop_level player_tag stats user Hfind)
    as (stats' & Hloop & Hstored).
  exists stats'. rewrite reset_fisher_run. cbn. rewrite Hloop.
  split; [reflexivity | exact Hstored].
Qed.

Lemma reset_level_keeps_league_witness :
  exists stats',
    reset_fisher 7 "level"
      {| rng := tape []; file := Document [mkEntry 7 120 25 "Minnow"] |} =
    (Return (Some true), {| rng := tape []; file := Document stats' |})
    /\ Player.find_user 7 stats' = Some (mkEntry 7 120 0 "Minnow").
Proof.
  apply (reset_level_keeps_league (tape []) 7
           [mkEntry 7 120 25 "Minnow"] (mkEntry 7 120 25 "Minnow")).
  reflexivity.
Defined.

(** The record that reset leaves behind: level 0 under the league
    "Minnow", where [level_check] gives "Unranked" to level 0. *)
Lemma reset_level_stale_league :
  reset_fisher 7 "level"
    {| rng := tape []; file := Document [mkEntry 7 120 25 "Minnow"] |} =
  (Return (Some true),
   {| rng := tape []; file := Document [mkEntry 7 120 0 "Minnow"] |})
  /\ rank_of 0 = "Unranked"
  /\ "Minnow" <> rank_of 0.
Proof.
  repeat split. cbn. intros H. discriminate H.
Qed.

Lemma delete_all_players_run (w : World) :
  delete_all_players w =
  match file w with
  | Document _ => (Return (Some true), {| rng := rng w; file := Document [] |})
  | Absent | Garbage => (Return None, w)
  end.
Proof.
  unfold delete_all_players, try_except, bind, json_load, json_dump, put_file,
    get_file, raise, ret.
  cbn. destruct (file w); reflexivity.
Qed.

(** C9, as the code has it. On a ledger whose document exists and decodes,
    [delete_all_players] succeeds and leaves the empty array, and a second
    call right after succeeds again and leaves it empty again; on a missing
    or undecodable document each call returns [None] and changes nothing. *)
Theorem delete_all_players_twice (w : World) :
  (forall stats, file w = Document stats ->
     delete_all_players w =
     (Return (Some true), {| rng := rng w; file := Document [] |})
     /\ delete_all_players {| rng := rng w; file := Document [] |} =
        (Return (Some true), {| rng := rng w; file := Document [] |}))
  /\ (file w = Absent \/ file w = Garbage ->
      delete_all_players w = (Return None, w)
      /\ delete_all_players (snd (delete_all_players w)) = (Return None, w)).
Proof.
  split.
  - intros stats Hfile. rewrite !delete_all_players_run. cbn. rewrite Hfile.
    split; reflexivity.
  - intros Hfile.
    assert (Hrun : delete_all_players w = (Return None, w)).
    { rewrite delete_all_players_run.
      destruct Hfile as [-> | ->]; reflexivity. }
    rewrite Hrun. cbn. split; [reflexivity | exact Hrun].
Qed.

Lemma delete_all_players_twice_witness :
  (delete_all_players
     {| rng := tape []; file := Document [mkEntry 7 120 25 "Minnow"] |} =
   (Return (Some true), {| rng := tape []; file := Document [] |})
   /\ delete_all_players {| rng := tape []; file := Document [] |} =
      (Return (Some true), {| rng := tape []; file := Document [] |}))
  /\ (delete_all_players {| rng := tape []; file := Absent |} =
      (Return None, {| rng := tape []; file := Absent |})
      /\ delete_all_players
           (snd (delete_all_players {| rng := tape []; file := Absent |})) =
         (Return None, {| rng := tape []; file := Absent |})).
Proof.
  split.
  - apply (proj1 (delete_all_players_twice
                    {| rng := tape [];
                       file := Document [mkEntry 7 120 25 "Minnow"] |})
             [mkEntry 7 120 25 "Minnow"]).
    reflexivity.
  - apply (proj2 (delete_all_players_twice
                    {| rng := tape []; file := Absent |})).
    left. reflexivity.
Defined.

(** C9, as the claim has it, fails when the document is missing: the call
    does not succeed, it returns [None]. *)
Lemma delete_all_players_absent_fails :
  fst (delete_all_players {| rng := tape []; file := Absent |}) = Return None
  /\ ~ fst (delete_all_players {| rng := tape []; file := Absent |})
       = Return (Some true).
Proof.
  split; [reflexivity |].
  cbn. intros H. discriminate H.
Qed.

(** * Loot rolls *)

Lemma all_between_spec (lo hi : Z) (P : Z -> bool) :
  all_between lo hi P = true ->
  forall k, lo <= k <= hi -> P k = true.
Proof.
  unfold all_between. intros Hall k Hk.
  rewrite forallb_forall in Hall.
  replace k with (lo + Z.of_nat (Z.to_nat (k - lo))) by lia.
  apply Hall. apply in_seq. lia.
Qed.

Lemma randint_run (a b : Z) (w : World) :
  random.randint a b w =
  (Return (a + rng w 0%nat mod (b - a + 1)), random.advance w).
Proof. reflexivity. Qed.

Lemma randint_range (a b k : Z) :
  a <= b -> a <= a + k mod (b - a + 1) <= b.
Proof.
  intros Hab.
  pose proof (Z.mod_pos_bound k (b - a + 1) ltac:(lia)). lia.
Qed.

Lemma uniform_round2_run (a100 b100 : Z) (w : World) :
  random.uniform_round2 a100 b100 w =
  (Return (literal (a100 + rng w 0%nat mod (b100 - a100 + 1)) 100),
   random.advance w).
Proof. reflexivity. Qed.

(** The doubles nearest to 50.10, 50.11, ..., 60.00 lie between the first
    and the last of them. *)
Lemma legendary_weights_ordered (k : Z) :
  5010 <= k <= 6000 ->
  leb (literal 5010 100) (literal k 100) = true
  /\ leb (literal k 100) (literal 6000 100) = true.
Proof.
  intros Hk. apply andb_true_iff.
  apply (all_between_spec 5010 6000
           (fun k => leb (literal 5010 100) (literal k 100)
                     && leb (literal k 100) (literal 6000 100))%bool);
    [vm_compute; reflexivity | exact Hk].
Qed.

(** No experience, no reward, whatever a "Trash" item weighs. *)
Lemma trash_reward_zero (k : Z) :
  10 <= k <= 90 ->
  PyFloat.round (reward 0 (literal k 100)) = Some 0.
Proof.
  intros Hk.
  pose proof (all_between_spec 10 90
                (fun k => match PyFloat.round (reward 0 (literal k 100)) with
                          | Some 0 => true
                          | _ => false
                          end)
                ltac:(vm_compute; reflexivity) k Hk) as Hcheck.
  cbv beta in Hcheck.
  destruct (PyFloat.round (reward 0 (literal k 100))) as [[| p | p] |];
    try discriminate Hcheck.
  reflexivity.
Qed.

(** C8. A "Trash" item always rolls experience 0, and its reward, the
    rounded half of experience times weight, is 0 for every weight it can
    roll; a "Legendary" item rolls a value from 5001 to 10000, an experience
    from 3501 to 5000 and a weight from 50.10 to 60.00, bounds included. *)
Theorem loot_roll_bounds (self : Loot.t) (w : World) :
  (Loot.rarity self = "Trash" ->
   returned (Loot.xp_loot_algo self w) = Some (0, Loot.set_xp_loot self 0)
   /\ exists wt,
        returned (Loot.weight_algo self w) = Some (wt, Loot.set_weight self wt)
        /\ returned (round_int (reward 0 wt) w) = Some 0)
  /\ (Loot.rarity self = "Legendary" ->
      (exists v,
          returned (Loot.value_loot_algo self w)
          = Some (v, Loot.set_value self v)
          /\ 5001 <= v <= 10000)
      /\ (exists xp,
             returned (Loot.xp_loot_algo self w)
             = Some (xp, Loot.set_xp_loot self xp)
             /\ 3501 <= xp <= 5000)
      /\ (exists wt,
             returned (Loot.weight_algo self w)
             = Some (wt, Loot.set_weight self wt)
             /\ leb (literal 5010 100) wt = true
             /\ leb wt (literal 6000 100) = true)).
Proof.
  split; intros Hrarity.
  - unfold Loot.xp_loot_algo, Loot.weight_algo. rewrite Hrarity. cbn.
    split; [reflexivity |].
    eexists. split; [reflexivity |].
    unfold round_int, returned.
    rewrite trash_reward_zero; [reflexivity |].
    apply (randint_range 10 90). lia.
  - unfold Loot.value_loot_algo, Loot.xp_loot_algo, Loot.weight_algo.
    rewrite Hrarity. cbn. repeat split.
    + eexists. split; [reflexivity |]. apply (randint_range 5001 10000). lia.
    + eexists. split; [reflexivity |]. apply (randint_range 3501 5000). lia.
    + eexists. split; [reflexivity |].
      apply legendary_weights_ordered. apply (randint_range 5010 6000). lia.
Qed.

Lemma loot_roll_bounds_witness :
  (returned
     (Loot.xp_loot_algo (Loot.__init__ "Old Shoe" "Trash" "" 0 0 zero)
        {| rng := tape [33]; file := Absent |})
   = Some (0, Loot.set_xp_loot (Loot.__init__ "Old Shoe" "Trash" "" 0 0 zero) 0)
   /\ exists wt,
        returned
          (Loot.weight_algo (Loot.__init__ "Old Shoe" "Trash" "" 0 0 zero)
             {| rng := tape [33]; file := Absent |})
        = Some (wt, Loot.set_weight
                      (Loot.__init__ "Old Shoe" "Trash" "" 0 0 zero) wt)
        /\ returned
             (round_int (reward 0 wt) {| rng := tape [33]; file := Absent |})
           = Some 0)
  /\ exists wt,
       returned
         (Loot.weight_algo (Loot.__init__ "Kraken" "Legendary" "" 0 0 zero)
            {| rng := tape [33]; file := Absent |})
       = Some (wt, Loot.set_weight
                     (Loot.__init__ "Kraken" "Legendary" "" 0 0 zero) wt)
       /\ leb (literal 5010 100) wt = true
       /\ leb wt (literal 6000 100) = true.
Proof.
  split.
  - apply (proj1 (loot_roll_bounds
                    (Loot.__init__ "Old Shoe" "Trash" "" 0 0 zero)
                    {| rng := tape [33]; file := Absent |})).
    reflexivity.
  - apply (proj2 (loot_roll_bounds
                    (Loot.__init__ "Kraken" "Legendary" "" 0 0 zero)
                    {| rng := tape [33]; file := Absent |})).
    reflexivity.
Defined.

(** * Rarity sampling *)

Lemma digits2_pos_lower (p : positive) :
  2 ^ (Zpos (digits2_pos p) - 1) <= Zpos p.
Proof.
  induction p as [p IH | p IH |]; cbn [digits2_pos].
  - rewrite Pos2Z.inj_succ.
    replace (Z.succ (Zpos (digits2_pos p)) - 1)
      with (Z.succ (Zpos (digits2_pos p) - 1)) by lia.
    rewrite Z.pow_succ_r by lia. lia.
  - rewrite Pos2Z.inj_succ.
    replace (Z.succ (Zpos (digits2_pos p)) - 1)
      with (Z.succ (Zpos (digits2_pos p) - 1)) by lia.
    rewrite Z.pow_succ_r by lia. lia.
  - cbn. lia.
Qed.

Lemma digits2_pos_small (p : positive) :
  Zpos p < 2 ^ 53 -> Zpos (digits2_pos p) <= 53.
Proof.
  intros Hp. pose proof (digits2_pos_lower p) as Hlow.
  destruct (Z_le_gt_dec (Zpos (digits2_pos p)) 53) as [Hle | Hgt];
    [exact Hle |].
  exfalso.
  assert (2 ^ 53 <= 2 ^ (Zpos (digits2_pos p) - 1))
    by (apply Z.pow_le_mono_r; lia).
  lia.
Qed.

Lemma digits2_pos_iter_xO (p q : positive) :
  digits2_pos (Pos.iter xO p q) = (digits2_pos p + q)%positive.
Proof.
  induction q as [| q IH] using Pos.peano_ind.
  - cbn. lia.
  - rewrite Pos.iter_succ. cbn [digits2_pos]. rewrite IH. lia.
Qed.

(** A mantissa of 53 bits needs no rounding. *)
Lemma binary_round_aux_exact (s : bool) (m : positive) (e : Z) :
  Zpos (digits2_pos m) = 53 -> -1074 <= e <= 971 ->
  binary_round_aux prec emax s (Zpos m) e loc_Exact = S754_finite s m e.
Proof.
  intros Hd He.
  assert (Hshr : shr_fexp prec emax (Zpos m) e loc_Exact
                 = ({| shr_m := Zpos m; shr_r := false; shr_s := false |}, e)).
  { unfold shr_fexp, Zdigits2. rewrite Hd.
    replace (fexp prec emax (53 + e) - e) with 0
      by (unfold fexp, emin, prec, emax; lia).
    reflexivity. }
  unfold binary_round_aux. rewrite Hshr.
  cbn [shr_m loc_of_shr_record round_nearest_even].
  rewrite Hshr. cbn [shr_m].
  replace (e <=? emax - prec) with true
    by (symmetry; apply Z.leb_le; unfold emax, prec; lia).
  reflexivity.
Qed.

Lemma binary_round_unit (p : positive) :
  Zpos p < 2 ^ 53 ->
  exists m e,
    binary_round prec emax false p (-53) = S754_finite false m e /\ e <= -53.
Proof.
  intros Hp. pose proof (digits2_pos_small p Hp) as Hd.
  assert (Hpos : 0 < Zpos (digits2_pos p)) by lia.
  unfold binary_round.
  replace (fexp prec emax (Zpos (digits2_pos p) + -53))
    with (Zpos (digits2_pos p) - 106)
    by (unfold fexp, emin, prec, emax; lia).
  unfold shl_align.
  destruct (Zpos (digits2_pos p) - 106 - -53) as [| q | q] eqn:Hshift.
  - exists p, (-53). split; [| lia].
    apply binary_round_aux_exact; lia.
  - lia.
  - exists (Pos.iter xO p q), (Zpos (digits2_pos p) - 106). split; [| lia].
    apply binary_round_aux_exact; [| lia].
    rewrite digits2_pos_iter_xO. lia.
Qed.

Lemma one_eq : one = S754_finite false 4503599627370496 (-52).
Proof. vm_compute. reflexivity. Qed.

(** What [random.random()] returns lies in [[0, 1)]. *)
Lemma unit_float_range (k : Z) :
  leb zero (random.unit_float k) = true
  /\ ltb (random.unit_float k) one = true.
Proof.
  unfold random.unit_float.
  assert (Hm : 0 <= k mod 2 ^ 53 < 2 ^ 53)
    by (apply Z.mod_pos_bound; reflexivity).
  destruct (k mod 2 ^ 53) as [| p | p].
  - split; vm_compute; reflexivity.
  - cbn [binary_normalize].
    destruct (binary_round_unit p (proj2 Hm)) as (m & e & -> & He).
    split; [reflexivity |].
    rewrite one_eq. unfold ltb, SFltb, SFcompare.
    destruct (Z.compare_spec e (-52)); [lia | reflexivity | lia].
  - exfalso. destruct Hm as [Hm _]. apply Hm. reflexivity.
Qed.

Lemma firstn_S_sum (items : list (string * float)) (prob : float)
    (rarity : string) (acc : float) (n : nat) :
  fold_left add (map snd (firstn (S n) ((rarity, prob) :: items))) acc
  = fold_left add (map snd (firstn n items)) (add acc prob).
Proof. reflexivity. Qed.


(** The walk selects nothing exactly when no running sum exceeds [rand]. *)
Lemma select_rarity_none (items : list (string * float)) (rand acc : float) :
  select_rarity items rand acc = None <->
  forall j, (j < List.length items)%nat ->
    ltb rand (fold_left add (map snd (firstn (S j) items)) acc) = false.
Proof.
  revert acc.
  induction items as [| [r prob] rest IH]; intros acc.
  - split; [intros _ j Hj; cbn in Hj; lia | reflexivity].
  - cbn [select_rarity]. split.
    + destruct (ltb rand (add acc prob)) eqn:Hlt; [discriminate |].
      intros Hsel [| j] Hj; [exact Hlt |].
      rewrite firstn_S_sum. apply (proj1 (IH _) Hsel). cbn in Hj. lia.
    + intros Hall.
      pose proof (Hall 0%nat ltac:(cbn; lia)) as Hhead.
      change (ltb rand (add acc prob) = false) in Hhead. rewrite Hhead.
      apply IH. intros j Hj. rewrite <- (firstn_S_sum rest prob r).
      apply Hall. cbn. lia.
Qed.

(** The eight configured probabilities add up, in binary64 and in table
    order, to exactly 1.0. *)
Lemma cumulative_configured :
  cumulative RARITY_PROBABILITIES 8 = one
  /\ sums_to_one RARITY_PROBABILITIES = true.
Proof. split; vm_compute; reflexivity. Qed.

Lemma select_rarity_configured (rand : float) :
  ltb rand one = true ->
  exists rarity, select_rarity RARITY_PROBABILITIES rand zero = Some rarity.
Proof.
  intros Hlt.
  destruct (select_rarity RARITY_PROBABILITIES rand zero) as [rarity |] eqn:Hsel;
    [exists rarity; reflexivity |].
  exfalso.
  pose proof (proj1 (select_rarity_none _ _ _) Hsel 7%nat
                ltac:(cbn; lia)) as Hlast.
  change (fold_left add (map snd (firstn 8 RARITY_PROBABILITIES)) zero)
    with (cumulative RARITY_PROBABILITIES 8) in Hlast.
  rewrite (proj1 cumulative_configured) in Hlast. congruence.
Qed.

Lemma fishing_run (catches : list Loot.t) (w : World) :
  fishing catches w =
  match select_rarity RARITY_PROBABILITIES
          (random.unit_float (rng w 0%nat)) zero with
  | None =>
      match catches with
      | [] => (Return None, random.advance w)
      | _ :: _ => (Raise NameError, random.advance w)
      end
  | Some selected_rarity =>
      match candidates selected_rarity catches with
      | [] => (Return None, random.advance w)
      | loot :: rest =>
          bind (random.choice (loot :: rest)) (fun x => ret (Some x))
            (random.advance w)
      end
  end.
Proof.
  unfold fishing.
  change (ltb (abs (sub (fold_left add (map snd RARITY_PROBABILITIES) zero)
                      one)) (literal 1 1000000))
    with (sums_to_one RARITY_PROBABILITIES).
  rewrite (proj2 cumulative_configured).
  cbv beta iota delta [negb bind random.random random.draw ret].
  generalize (select_rarity RARITY_PROBABILITIES
                (random.unit_float (rng w 0%nat)) zero).
  intros [selected_rarity |].
  - unfold filter_catches, candidates, ret.
    destruct (filter _ catches); reflexivity.
  - destruct catches; reflexivity.
Qed.

Lemma choice_run {A} (x : A) (rest : list A) (w : World) :
  exists y, In y (x :: rest)
            /\ random.choice (x :: rest) w = (Return y, random.advance w).
Proof.
  unfold random.choice, bind, random.draw, ret.
  set (i := Z.to_nat (rng w 0%nat mod Z.of_nat (List.length (x :: rest)))).
  assert (Hi : (i < List.length (x :: rest))%nat).
  { subst i.
    pose proof (Z.mod_pos_bound (rng w 0%nat)
                  (Z.of_nat (List.length (x :: rest))) ltac:(cbn; lia)).
    lia. }
  destruct (nth_error (x :: rest) i) as [y |] eqn:Hnth.
  - exists y. split; [eapply nth_error_In; exact Hnth | reflexivity].
  - apply nth_error_None in Hnth. lia.
Qed.

Lemma fishing_keeps_file (catches : list Loot.t) (w : World) :
  file (snd (fishing catches w)) = file w.
Proof.
  rewrite fishing_run.
  generalize (select_rarity RARITY_PROBABILITIES
                (random.unit_float (rng w 0%nat)) zero).
  intros [selected_rarity |].
  - destruct (candidates selected_rarity catches) as [| x rest];
      [reflexivity |].
    destruct (choice_run x rest (random.advance w)) as (y & _ & Hrun).
    unfold bind. rewrite Hrun. reflexivity.
  - destruct catches; reflexivity.
Qed.

Lemma select_rarity_in (items : list (string * float)) (rand acc : float)
    (rarity : string) :
  select_rarity items rand acc = Some rarity -> In rarity (map fst items).
Proof.
  revert acc.
  induction items as [| [r prob] rest IH]; intros acc; [discriminate |].
  cbn [select_rarity map fst].
  destruct (ltb rand (add acc prob)).
  - intros [= <-]. left. reflexivity.
  - intros Hsel. right. exact (IH _ Hsel).
Qed.




(** * The [fish] command *)

Lemma load_player_run (user_id : Z) (w : World) :
  load_player user_id w = (Return (loaded user_id (file w)), w).
Proof.
  unfold load_player. rewrite load_from_leaderboard_run.
  unfold loaded, stats_of.
  destruct (file w) as [| | stats]; reflexivity.
Qed.

Lemma save_to_leaderboard_run (self : Player.t) (w : World) :
  Player.save_to_leaderboard self w =
  match file w with
  | Garbage => (Raise JSONDecodeError, w)
  | f => (Return tt,
          {| rng := rng w;
             file := Document (Player.upsert self (stats_of f)) |})
  end.
Proof.
  unfold Player.save_to_leaderboard, isfile, bind, json_load, json_dump,
    put_file, get_file, raise, ret.
  cbn. destruct w as [g f]. destruct f; reflexivity.
Qed.

(** What a successful catch does: the value roll is added to the level,
    the rounded half of experience roll times weight to the money, the
    league is recomputed and the record written. *)
Lemma fish_catch_run (catches : list Loot.t) (user_id : Z)
    (w w1 w2 w3 w4 : World)
    (loot l1 l2 l3 : Loot.t) (wt : float) (xp cv v : Z) :
  fishing catches w = (Return (Some loot), w1) ->
  Loot.weight_algo loot w1 = (Return (wt, l1), w2) ->
  Loot.xp_loot_algo l1 w2 = (Return (xp, l2), w3) ->
  PyFloat.round (reward xp wt) = Some cv ->
  Loot.value_loot_algo l2 w3 = (Return (v, l3), w4) ->
  file w4 <> Garbage ->
  fish catches user_id w =
  (Return (Embed l3 wt cv v),
   {| rng := rng w4;
      file := Document
                (Player.upsert
                   (Player.level_check
                      (credit (loaded user_id (file w4)) v cv))
                   (stats_of (file w4))) |}).
Proof.
  intros Hfishing Hweight Hxp Hround Hvalue Hfile.
  unfold fish, bind, call. rewrite Hfishing.
  unfold bind. rewrite Hweight. cbv beta iota delta [ret].
  rewrite Hxp. cbv beta iota.
  unfold round_int. rewrite Hround. cbv beta iota delta [ret].
  rewrite Hvalue. cbv beta iota.
  fold (load_player user_id). rewrite load_player_run.
  rewrite save_to_leaderboard_run.
  destruct (file w4); [reflexivity | contradiction | reflexivity].
Qed.

Lemma rank_of_minnow (e : Z) : 0 < e < 1000 -> rank_of e = "Minnow".
Proof.
  intros He. unfold rank_of, Player.level_check, Player.set_league. cbn.
  replace (0 <? e) with true by (symmetry; apply Z.ltb_lt; lia).
  replace (e <? 1000) with true by (symmetry; apply Z.ltb_lt; lia).
  reflexivity.
Qed.

Lemma candidates_rarity (selected_rarity : string) (catches : list Loot.t)
    (loot : Loot.t) :
  In loot (candidates selected_rarity catches) ->
  Loot.rarity loot = selected_rarity.
Proof.
  unfold candidates. intros Hin. apply filter_In in Hin as [_ Heq].
  apply String.eqb_eq. exact Heq.
Qed.

(** C1, on the code. From a fresh ledger, a "Common" catch that rolls
    experience 80 and weight 3.0 credits money 120, the rounded half of
    80 times 3.0, but credits to the level the value roll, which lies
    between 10 and 50, not the experience roll 80; the league stored is
    "Minnow". *)
Theorem fish_credits_value_roll (c v : Z) (f : File) :
  f = Absent \/ f = Document [] ->
  exists catch g',
    fish CATCHES 42
      {| rng := tape [3000000000000000; c; 200; 30; v]; file := f |}
    = (Return (Embed catch (literal 300 100) 120 (10 + v mod 41)),
       {| rng := g';
          file := Document [mkEntry 42 120 (10 + v mod 41) "Minnow"] |})
    /\ Loot.rarity catch = "Common"
    /\ Loot.xp_loot catch = 80
    /\ Loot.weight catch = of_int 3
    /\ PyFloat.round (reward 80 (of_int 3)) = Some 120
    /\ returned
         (load_player 42
            {| rng := g';
               file := Document [mkEntry 42 120 (10 + v mod 41) "Minnow"] |})
       = Some {| Player.user_id := 42; Player.money := 120;
                 Player.level := 10 + v mod 41; Player.league := "Minnow" |}
    /\ 10 <= 10 + v mod 41 <= 50.
Proof.
  intros Hfresh.
  set (w := {| rng := tape [3000000000000000; c; 200; 30; v]; file := f |}).
  assert (Hsel : select_rarity RARITY_PROBABILITIES
                   (random.unit_float (rng w 0%nat)) zero = Some "Common")
    by (vm_compute; reflexivity).
  assert (Hcand : exists x rest, candidates "Common" CATCHES = x :: rest)
    by (vm_compute; eexists; eexists; reflexivity).
  destruct Hcand as (x & rest & Hcand).
  destruct (choice_run x rest (random.advance w)) as (loot & Hin & Hchoice).
  assert (Hfishing : fishing CATCHES w
                     = (Return (Some loot),
                        random.advance (random.advance w))).
  { rewrite fishing_run, Hsel, Hcand.
    unfold bind. rewrite Hchoice. reflexivity. }
  rewrite <- Hcand in Hin. apply candidates_rarity in Hin.
  assert (Hthree : literal 300 100 = of_int 3) by (vm_compute; reflexivity).
  assert (Hround : PyFloat.round (reward 80 (literal 300 100)) = Some 120)
    by (vm_compute; reflexivity).
  pose proof (randint_range 10 50 v ltac:(lia)) as Hv.
  change (50 - 10 + 1) with 41 in Hv.
  assert (Hweight :
            Loot.weight_algo loot (random.advance (random.advance w))
            = (Return (literal 300 100,
                       Loot.set_weight loot (literal 300 100)),
               random.advance (random.advance (random.advance w)))).
  { unfold Loot.weight_algo. rewrite Hin. reflexivity. }
  assert (Hxp :
            Loot.xp_loot_algo (Loot.set_weight loot (literal 300 100))
              (random.advance (random.advance (random.advance w)))
            = (Return (80, Loot.set_xp_loot
                             (Loot.set_weight loot (literal 300 100)) 80),
               random.advance
                 (random.advance (random.advance (random.advance w))))).
  { unfold Loot.xp_loot_algo. cbn [Loot.set_weight Loot.rarity].
    rewrite Hin. reflexivity. }
  assert (Hvalue :
            Loot.value_loot_algo
              (Loot.set_xp_loot (Loot.set_weight loot (literal 300 100)) 80)
              (random.advance
                 (random.advance (random.advance (random.advance w))))
            = (Return (10 + v mod 41,
                       Loot.set_value
                         (Loot.set_xp_loot
                            (Loot.set_weight loot (literal 300 100)) 80)
                         (10 + v mod 41)),
               random.advance
                 (random.advance
                    (random.advance
                       (random.advance (random.advance w)))))).
  { unfold Loot.value_loot_algo.
    cbn [Loot.set_weight Loot.set_xp_loot Loot.rarity].
    rewrite Hin. reflexivity. }
  assert (Hfile : file (random.advance
                          (random.advance
                             (random.advance
                                (random.advance (random.advance w)))))
                  <> Garbage).
  { cbn. destruct Hfresh as [-> | ->]; discriminate. }
  pose proof (fish_catch_run _ 42 _ _ _ _ _ _ _ _ _ _ _ _ _
                Hfishing Hweight Hxp Hround Hvalue Hfile) as Hfish.
  eexists. eexists. split.
  - rewrite Hfish. f_equal. f_equal. f_equal.
    cbn [file random.advance w].
    assert (Hstart : stats_of f = []) by (destruct Hfresh as [-> | ->]; reflexivity).
    unfold loaded. rewrite Hstart. cbn [Player.find_user].
    cbn [Player.upsert].
    rewrite level_check_league.
    destruct (level_check_keeps
                (credit (Player.__init__ 42 0 0 "") (10 + v mod 41) 120))
      as (-> & -> & ->).
    cbn [credit Player.__init__ Player.user_id Player.money Player.level].
    rewrite (rank_of_minnow (0 + (10 + v mod 41))) by lia.
    reflexivity.
  - split; [exact Hin |]. split; [reflexivity |].
    split; [cbn; exact Hthree |].
    split; [rewrite <- Hthree; exact Hround |].
    split; [| exact Hv].
    rewrite load_player_run. unfold returned, loaded. cbn. reflexivity.
Qed.

Lemma fish_credits_value_roll_witness :
  exists catch g',
    fish CATCHES 42
      {| rng := tape [3000000000000000; 0; 200; 30; 70]; file := Absent |}
    = (Return (Embed catch (literal 300 100) 120 (10 + 70 mod 41)),
       {| rng := g';
          file := Document [mkEntry 42 120 (10 + 70 mod 41) "Minnow"] |})
    /\ Loot.rarity catch = "Common"
    /\ Loot.xp_loot catch = 80
    /\ Loot.weight catch = of_int 3
    /\ PyFloat.round (reward 80 (of_int 3)) = Some 120
    /\ returned
         (load_player 42
            {| rng := g';
               file := Document [mkEntry 42 120 (10 + 70 mod 41) "Minnow"] |})
       = Some {| Player.user_id := 42; Player.money := 120;
                 Player.level := 10 + 70 mod 41; Player.league := "Minnow" |}
    /\ 10 <= 10 + 70 mod 41 <= 50.
Proof.
  apply (fish_credits_value_roll 0 70 Absent). left. reflexivity.
Defined.

(** * The ledger: saving, loading, deleting, resetting *)

Lemma find_user_id (tag : Z) (stats : list Entry) (user : Entry) :
  Player.find_user tag stats = Some user -> j_user_id user = tag.
Proof.
  induction stats as [| head rest IH]; [discriminate |].
  cbn. destruct (j_user_id head =? tag) eqn:Hid.
  - intros [= <-]. apply Z.eqb_eq. exact Hid.
  - exact IH.
Qed.

Lemma find_user_in_ids (tag : Z) (stats : list Entry) :
  Player.find_user tag stats <> None <-> In tag (ids stats).
Proof.
  induction stats as [| head rest IH]; cbn.
  - split; [congruence | contradiction].
  - destruct (j_user_id head =? tag) eqn:Hid.
    + apply Z.eqb_eq in Hid. split; [intros _; left; exact Hid | discriminate].
    + apply Z.eqb_neq in Hid. rewrite IH. split; [tauto |].
      intros [Hhead | Hrest]; [contradiction | exact Hrest].
Qed.

Lemma find_user_upsert_same (self : Player.t) (stats : list Entry) :
  Player.find_user (Player.user_id self) (Player.upsert self stats)
  = Some (entry_of self).
Proof.
  induction stats as [| head rest IH]; cbn.
  - rewrite Z.eqb_refl. reflexivity.
  - destruct (j_user_id head =? Player.user_id self) eqn:Hid; cbn; rewrite Hid.
    + apply Z.eqb_eq in Hid. unfold entry_of. rewrite Hid. reflexivity.
    + exact IH.
Qed.

Lemma find_user_upsert_other (self : Player.t) (tag : Z) (stats : list Entry) :
  tag <> Player.user_id self ->
  Player.find_user tag (Player.upsert self stats) = Player.find_user tag stats.
Proof.
  intros Hother.
  induction stats as [| head rest IH]; cbn.
  - replace (Player.user_id self =? tag) with false
      by (symmetry; apply Z.eqb_neq; congruence).
    reflexivity.
  - destruct (j_user_id head =? Player.user_id self) eqn:Hid; cbn.
    + apply Z.eqb_eq in Hid. rewrite Hid.
      replace (Player.user_id self =? tag) with false
        by (symmetry; apply Z.eqb_neq; congruence).
      reflexivity.
    + rewrite IH. reflexivity.
Qed.

Lemma ids_upsert (self : Player.t) (stats : list Entry) :
  ids (Player.upsert self stats) =
  match Player.find_user (Player.user_id self) stats with
  | Some _ => ids stats
  | None => (ids stats ++ [Player.user_id self])%list
  end.
Proof.
  induction stats as [| head rest IH]; [reflexivity |].
  cbn. destruct (j_user_id head =? Player.user_id self) eqn:Hid;
    [reflexivity |].
  cbn. fold (ids (Player.upsert self rest)). rewrite IH.
  destruct (Player.find_user (Player.user_id self) rest); reflexivity.
Qed.

(** X1. Saving a player and loading it again gives the player back; saving
    creates the document when the file is missing, and leaves the
    generator alone. *)
Theorem save_then_load (self : Player.t) (w : World) :
  file w <> Garbage ->
  exists w',
    Player.save_to_leaderboard self w = (Return tt, w')
    /\ rng w' = rng w
    /\ file w' = Document (Player.upsert self (stats_of (file w)))
    /\ load_player (Player.user_id self) w' = (Return self, w').
Proof.
  intros Hfile. rewrite save_to_leaderboard_run.
  exists {| rng := rng w;
            file := Document (Player.upsert self (stats_of (file w))) |}.
  split; [destruct (file w); [reflexivity | contradiction | reflexivity] |].
  split; [reflexivity |]. split; [reflexivity |].
  rewrite load_player_run. unfold loaded. cbn [file stats_of].
  rewrite find_user_upsert_same. destruct self. reflexivity.
Qed.

Lemma save_then_load_witness :
  exists w',
    Player.save_to_leaderboard (Player.mk 42 120 80 "Minnow")
      {| rng := tape []; file := Absent |} = (Return tt, w')
    /\ rng w' = tape []
    /\ file w' = Document [mkEntry 42 120 80 "Minnow"]
    /\ load_player 42 w' = (Return (Player.mk 42 120 80 "Minnow"), w').
Proof.
  apply (save_then_load (Player.mk 42 120 80 "Minnow")
           {| rng := tape []; file := Absent |}).
  discriminate.
Defined.

(** X2. Saving a player changes nobody else's record, replaces the player's
    own entry in place when there is one, and appends one entry when there
    is none. *)
Theorem save_keeps_others (self : Player.t) (w : World) :
  file w <> Garbage ->
  (forall tag, tag <> Player.user_id self ->
     loaded tag (file (snd (Player.save_to_leaderboard self w)))
     = loaded tag (file w))
  /\ ids (stats_of (file (snd (Player.save_to_leaderboard self w)))) =
     if has_player (Player.user_id self) (file w)
     then ids (stats_of (file w))
     else (ids (stats_of (file w)) ++ [Player.user_id self])%list.
Proof.
  intros Hfile. rewrite save_to_leaderboard_run.
  assert (Hafter :
            file (snd match file w with
                      | Garbage => (Raise JSONDecodeError, w)
                      | f => (Return tt,
                              {| rng := rng w;
                                 file := Document
                                           (Player.upsert self (stats_of f)) |})
                      end)
            = Document (Player.upsert self (stats_of (file w)))).
  { destruct (file w); [reflexivity | contradiction | reflexivity]. }
  rewrite Hafter. split.
  - intros tag Hother. unfold loaded. cbn [stats_of].
    rewrite (find_user_upsert_other self tag _ Hother). reflexivity.
  - cbn [stats_of]. rewrite ids_upsert. unfold has_player.
    destruct (file w) as [| | stats]; [reflexivity | contradiction |].
    cbn [stats_of].
    destruct (Player.find_user (Player.user_id self) stats); reflexivity.
Qed.

Lemma save_keeps_others_witness :
  (forall tag, tag <> 42 ->
     loaded tag
       (file (snd (Player.save_to_leaderboard (Player.mk 42 120 80 "Minnow")
                     {| rng := tape [];
                        file := Document [mkEntry 7 5 1200 "Guppy"] |})))
     = loaded tag (Document [mkEntry 7 5 1200 "Guppy"]))
  /\ ids (stats_of
            (file (snd (Player.save_to_leaderboard
                          (Player.mk 42 120 80 "Minnow")
                          {| rng := tape [];
                             file := Document [mkEntry 7 5 1200 "Guppy"] |}))))
     = [7; 42].
Proof.
  apply (save_keeps_others (Player.mk 42 120 80 "Minnow")
           {| rng := tape []; file := Document [mkEntry 7 5 1200 "Guppy"] |}).
  discriminate.
Defined.

Lemma entry_eqb_refl (a : Entry) : entry_eqb a a = true.
Proof.
  unfold entry_eqb. rewrite !Z.eqb_refl, String.eqb_refl. reflexivity.
Qed.

Lemma entry_eqb_id (a b : Entry) :
  entry_eqb a b = true -> j_user_id a = j_user_id b.
Proof.
  unfold entry_eqb. intros H.
  apply andb_true_iff in H as [H _]. apply andb_true_iff in H as [H _].
  apply andb_true_iff in H as [H _]. apply Z.eqb_eq. exact H.
Qed.

(** [remove] takes out the very entry the loop of [delete_player] found. *)
Lemma list_remove_found (tag : Z) (stats : list Entry) (user : Entry) :
  Player.find_user tag stats = Some user ->
  list_remove user stats = Some (drop_user tag stats).
Proof.
  induction stats as [| head rest IH]; [discriminate |].
  intros Hfind. pose proof (find_user_id _ _ _ Hfind) as Hid.
  cbn [Player.find_user] in Hfind. cbn [list_remove drop_user].
  destruct (j_user_id head =? tag) eqn:Hhead.
  - injection Hfind as ->. rewrite entry_eqb_refl. reflexivity.
  - destruct (entry_eqb head user) eqn:Heq.
    + apply entry_eqb_id in Heq. apply Z.eqb_neq in Hhead.
      exfalso. apply Hhead. rewrite Heq. exact Hid.
    + rewrite (IH Hfind). reflexivity.
Qed.

Lemma delete_player_run (player_tag : Z) (w : World) :
  delete_player player_tag w =
  if has_player player_tag (file w)
  then (Return (Some true),
        {| rng := rng w;
           file := Document (drop_user player_tag (stats_of (file w))) |})
  else (Return None, w).
Proof.
  unfold delete_player, try_except, bind, json_load, json_dump, put_file,
    get_file, raise, ret, has_player.
  cbn. destruct (file w) as [| | stats]; try reflexivity.
  cbn [stats_of].
  destruct (Player.find_user player_tag stats) as [user |] eqn:Hfind;
    [| reflexivity].
  rewrite (list_remove_found _ _ _ Hfind). reflexivity.
Qed.

Lemma find_user_drop_other (tag other : Z) (stats : list Entry) :
  other <> tag ->
  Player.find_user other (drop_user tag stats) = Player.find_user other stats.
Proof.
  intros Hother.
  induction stats as [| head rest IH]; [reflexivity |].
  cbn. destruct (j_user_id head =? tag) eqn:Hid.
  - apply Z.eqb_eq in Hid.
    replace (j_user_id head =? other) with false
      by (symmetry; apply Z.eqb_neq; congruence).
    reflexivity.
  - cbn. rewrite IH. reflexivity.
Qed.

Lemma ids_drop_user (tag : Z) (stats : list Entry) :
  Player.find_user tag stats <> None ->
  exists before after,
    ids stats = (before ++ tag :: after)%list
    /\ ids (drop_user tag stats) = (before ++ after)%list.
Proof.
  induction stats as [| head rest IH];
    [intros Hfind; exfalso; apply Hfind; reflexivity |].
  cbn. destruct (j_user_id head =? tag) eqn:Hid.
  - intros _. apply Z.eqb_eq in Hid. exists [], (ids rest).
    rewrite Hid. split; reflexivity.
  - intros Hfind. destruct (IH Hfind) as (before & after & Hids & Hdrop).
    exists (j_user_id head :: before), after. cbn.
    fold (ids rest). fold (ids (drop_user tag rest)).
    rewrite Hids, Hdrop. split; reflexivity.
Qed.

Lemma drop_user_split (tag : Z) (stats : list Entry) :
  Player.find_user tag stats <> None ->
  exists before user after,
    stats = (before ++ user :: after)%list
    /\ j_user_id user = tag
    /\ Forall (fun e => j_user_id e <> tag) before
    /\ drop_user tag stats = (before ++ after)%list.
Proof.
  induction stats as [| head rest IH];
    [intros Hfind; exfalso; apply Hfind; reflexivity |].
  cbn. destruct (j_user_id head =? tag) eqn:Hid.
  - intros _. apply Z.eqb_eq in Hid. exists [], head, rest.
    split; [reflexivity |]. split; [exact Hid |].
    split; [constructor | reflexivity].
  - intros Hfind. apply Z.eqb_neq in Hid.
    destruct (IH Hfind) as (before & user & after & Hsplit & Huser & Hbefore
                            & Hdrop).
    exists (head :: before), user, after.
    split; [cbn; rewrite Hsplit; reflexivity |]. split; [exact Huser |].
    split; [constructor; assumption | cbn; rewrite Hdrop; reflexivity].
Qed.

(** X3. Deleting a player the ledger holds succeeds, removes one entry, the
    first with that id (every entry before it has another id, and the
    entries before and after it stay in place), and changes nobody else's
    record; when the ids of the ledger are distinct the player is gone
    afterwards. *)
Theorem delete_player_present (player_tag : Z) (w : World) :
  has_player player_tag (file w) = true ->
  exists stats',
    delete_player player_tag w
    = (Return (Some true), {| rng := rng w; file := Document stats' |})
    /\ S (List.length stats') = List.length (stats_of (file w))
    /\ (forall other, other <> player_tag ->
          loaded other (Document stats') = loaded other (file w))
    /\ (NoDup (ids (stats_of (file w))) ->
        has_player player_tag (Document stats') = false)
    /\ exists before user after,
         stats_of (file w) = (before ++ user :: after)%list
         /\ j_user_id user = player_tag
         /\ Forall (fun e => j_user_id e <> player_tag) before
         /\ stats' = (before ++ after)%list.
Proof.
  intros Hhas. exists (drop_user player_tag (stats_of (file w))).
  rewrite delete_player_run, Hhas. split; [reflexivity |].
  assert (Hfind : Player.find_user player_tag (stats_of (file w)) <> None).
  { unfold has_player in Hhas. destruct (file w) as [| | stats];
      try discriminate. cbn.
    destruct (Player.find_user player_tag stats); [discriminate | discriminate]. }
  destruct (ids_drop_user _ _ Hfind) as (before & after & Hids & Hdrop).
  split; [| split; [| split]].
  - apply (f_equal (@List.length Z)) in Hids, Hdrop. unfold ids in *.
    rewrite length_map in Hids, Hdrop. rewrite Hids, Hdrop, !length_app.
    cbn. lia.
  - intros other Hother. unfold loaded. cbn [stats_of].
    rewrite (find_user_drop_other _ _ _ Hother). reflexivity.
  - intros Hnodup. rewrite Hids in Hnodup.
    apply NoDup_remove_2 in Hnodup.
    unfold has_player.
    destruct (Player.find_user player_tag
                (drop_user player_tag (stats_of (file w)))) eqn:Hleft;
      [| reflexivity].
    exfalso. apply Hnodup. rewrite <- Hdrop.
    apply find_user_in_ids. congruence.
  - exact (drop_user_split _ _ Hfind).
Qed.

Lemma delete_player_present_witness :
  exists stats',
    delete_player 7
      {| rng := tape [];
         file := Document [mkEntry 3 1 2 "Minnow"; mkEntry 7 5 1200 "Guppy"] |}
    = (Return (Some true), {| rng := tape []; file := Document stats' |})
    /\ S (List.length stats') = 2%nat
    /\ (forall other, other <> 7 ->
          loaded other (Document stats')
          = loaded other
              (Document [mkEntry 3 1 2 "Minnow"; mkEntry 7 5 1200 "Guppy"]))
    /\ (NoDup [3; 7] -> has_player 7 (Document stats') = false)
    /\ exists before user after,
         [mkEntry 3 1 2 "Minnow"; mkEntry 7 5 1200 "Guppy"]
         = (before ++ user :: after)%list
         /\ j_user_id user = 7
         /\ Forall (fun e => j_user_id e <> 7) before
         /\ stats' = (before ++ after)%list.
Proof.
  apply (delete_player_present 7
           {| rng := tape [];
              file := Document
                        [mkEntry 3 1 2 "Minnow"; mkEntry 7 5 1200 "Guppy"] |}).
  reflexivity.
Defined.

(** X4. Deleting a player the ledger does not hold, or from a missing or
    undecodable file, returns [None] and writes nothing. *)
Theorem delete_player_absent (player_tag : Z) (w : World) :
  has_player player_tag (file w) = false ->
  delete_player player_tag w = (Return None, w).
Proof.
  intros Hhas. rewrite delete_player_run, Hhas. reflexivity.
Qed.

Lemma delete_player_absent_witness :
  delete_player 9
    {| rng := tape []; file := Document [mkEntry 7 5 1200 "Guppy"] |}
  = (Return None,
     {| rng := tape []; file := Document [mkEntry 7 5 1200 "Guppy"] |}).
Proof.
  apply (delete_player_absent 9
           {| rng := tape []; file := Document [mkEntry 7 5 1200 "Guppy"] |}).
  reflexivity.
Defined.

Lemma reset_loop_success (player_tag : Z) (state : string)
    (stats : list Entry) (user : Entry) :
  Player.find_user player_tag stats = Some user ->
  valid_state state = true ->
  exists stats',
    reset_loop player_tag state stats = Some stats'
    /\ Player.find_user player_tag stats' =
       Some (if (lower state =? "money")%string
             then {| j_user_id := j_user_id user; j_money := 0;
                     j_level := j_level user; j_league := j_league user |}
             else {| j_user_id := j_user_id user; j_money := j_money user;
                     j_level := 0; j_league := j_league user |})
    /\ ids stats' = ids stats
    /\ forall other, other <> player_tag ->
         Player.find_user other stats' = Player.find_user other stats.
Proof.
  unfold valid_state. intros Hfind Hvalid.
  induction stats as [| head rest IH]; [discriminate |].
  cbn [Player.find_user] in Hfind. cbn [reset_loop].
  destruct (j_user_id head =? player_tag) eqn:Hid.
  - injection Hfind as ->.
    assert (Hne : forall other, other <> player_tag ->
                    (j_user_id user =? other) = false).
    { intros other Hother. apply Z.eqb_neq. apply Z.eqb_eq in Hid.
      congruence. }
    destruct (lower state =? "money")%string eqn:Hmoney.
    + eexists. split; [reflexivity |]. cbn. rewrite Hid.
      split; [reflexivity |]. split; [reflexivity |].
      intros other Hother. rewrite (Hne other Hother). reflexivity.
    + cbn [orb] in Hvalid. rewrite Hvalid.
      eexists. split; [reflexivity |]. cbn. rewrite Hid.
      split; [reflexivity |]. split; [reflexivity |].
      intros other Hother. rewrite (Hne other Hother). reflexivity.
  - destruct (IH Hfind) as (stats' & Hloop & Hstored & Hids & Hothers).
    exists (head :: stats'). rewrite Hloop. split; [reflexivity |].
    cbn. rewrite Hid. split; [exact Hstored |].
    split; [fold (ids stats'); fold (ids rest); rewrite Hids; reflexivity |].
    intros other Hother. rewrite (Hothers other Hother). reflexivity.
Qed.

(** X5. A reset of "money", "level" or "levels", in any letter case, for a
    player the ledger holds succeeds: it zeroes that one field of the
    player's first entry, keeps its other fields (the league too), keeps
    the order of the ids and changes nobody else's record. *)
Theorem reset_fisher_success (player_tag : Z) (state : string) (w : World)
    (stats : list Entry) (user : Entry) :
  file w = Document stats ->
  Player.find_user player_tag stats = Some user ->
  valid_state state = true ->
  exists stats',
    reset_fisher player_tag state w
    = (Return (Some true), {| rng := rng w; file := Document stats' |})
    /\ Player.find_user player_tag stats' =
       Some (if (lower state =? "money")%string
             then {| j_user_id := j_user_id user; j_money := 0;
                     j_level := j_level user; j_league := j_league user |}
             else {| j_user_id := j_user_id user; j_money := j_money user;
                     j_level := 0; j_league := j_league user |})
    /\ ids stats' = ids stats
    /\ forall other, other <> player_tag ->
         loaded other (Document stats') = loaded other (Document stats).
Proof.
  intros Hfile Hfind Hvalid.
  destruct (reset_loop_success _ _ _ _ Hfind Hvalid)
    as (stats' & Hloop & Hstored & Hids & Hothers).
  exists stats'. rewrite reset_fisher_run, Hfile, Hloop.
  split; [reflexivity |]. split; [exact Hstored |]. split; [exact Hids |].
  intros other Hother. unfold loaded. cbn [stats_of].
  rewrite (Hothers other Hother). reflexivity.
Qed.

Lemma reset_fisher_success_witness :
  exists stats',
    reset_fisher 7 "MONEY"
      {| rng := tape [];
         file := Document [mkEntry 3 1 2 "Minnow"; mkEntry 7 5 1200 "Guppy"] |}
    = (Return (Some true), {| rng := tape []; file := Document stats' |})
    /\ Player.find_user 7 stats' = Some (mkEntry 7 0 1200 "Guppy")
    /\ ids stats' = [3; 7]
    /\ forall other, other <> 7 ->
         loaded other (Document stats')
         = loaded other
             (Document [mkEntry 3 1 2 "Minnow"; mkEntry 7 5 1200 "Guppy"]).
Proof.
  apply (reset_fisher_success 7 "MONEY"
           {| rng := tape [];
              file := Document
                        [mkEntry 3 1 2 "Minnow"; mkEntry 7 5 1200 "Guppy"] |}
           [mkEntry 3 1 2 "Minnow"; mkEntry 7 5 1200 "Guppy"]
           (mkEntry 7 5 1200 "Guppy"));
    reflexivity.
Defined.

Lemma reset_loop_again (player_tag : Z) (state : string)
    (stats stats' : list Entry) :
  reset_loop player_tag state stats = Some stats' ->
  reset_loop player_tag state stats' = Some stats'.
Proof.
  revert stats'.
  induction stats as [| head rest IH]; intros stats'; [discriminate |].
  cbn [reset_loop].
  destruct (j_user_id head =? player_tag) eqn:Hid.
  - destruct (lower state =? "money")%string eqn:Hmoney.
    + intros [= <-]. cbn. rewrite Hid, Hmoney. reflexivity.
    + destruct ((lower state =? "level") || (lower state =? "levels"))%string
        eqn:Hlevel; [| discriminate].
      intros [= <-]. cbn. rewrite Hid, Hmoney, Hlevel. reflexivity.
  - destruct (reset_loop player_tag state rest) as [rest' |] eqn:Hrest;
      [| discriminate].
    intros [= <-]. cbn. rewrite Hid, (IH rest' eq_refl). reflexivity.
Qed.

(** X6. Resetting twice is resetting once: the second call returns what the
    first did and leaves the ledger as the first call left it. *)
Theorem reset_fisher_twice (player_tag : Z) (state : string) (w : World) :
  reset_fisher player_tag state (snd (reset_fisher player_tag state w))
  = reset_fisher player_tag state w.
Proof.
  rewrite (reset_fisher_run player_tag state w).
  destruct (file w) as [| | stats] eqn:Hfile.
  - cbn [snd]. rewrite reset_fisher_run, Hfile. reflexivity.
  - cbn [snd]. rewrite reset_fisher_run, Hfile. reflexivity.
  - destruct (reset_loop player_tag state stats) as [stats' |] eqn:Hloop.
    + cbn [snd]. rewrite reset_fisher_run. cbn [file rng].
      rewrite (reset_loop_again _ _ _ _ Hloop). reflexivity.
    + cbn [snd]. rewrite reset_fisher_run, Hfile, Hloop. reflexivity.
Qed.

Lemma reset_loop_ids (player_tag : Z) (state : string)
    (stats stats' : list Entry) :
  reset_loop player_tag state stats = Some stats' -> ids stats' = ids stats.
Proof.
  revert stats'.
  induction stats as [| head rest IH]; intros stats'; [discriminate |].
  cbn [reset_loop].
  destruct (j_user_id head =? player_tag).
  - destruct (lower state =? "money")%string; [intros [= <-]; reflexivity |].
    destruct ((lower state =? "level") || (lower state =? "levels"))%string;
      [intros [= <-]; reflexivity | discriminate].
  - destruct (reset_loop player_tag state rest) as [rest' |]; [| discriminate].
    intros [= <-]. cbn. fold (ids rest'). fold (ids rest).
    rewrite (IH rest' eq_refl). reflexivity.
Qed.

(** X7. Every write keeps the ids of the ledger distinct: saving a player,
    resetting a field, deleting one player and deleting all of them. *)
Theorem writes_keep_ids_distinct (w : World) (self : Player.t)
    (player_tag : Z) (state : string) :
  NoDup (ids (stats_of (file w))) ->
  NoDup (ids (stats_of (file (snd (Player.save_to_leaderboard self w)))))
  /\ NoDup (ids (stats_of (file (snd (reset_fisher player_tag state w)))))
  /\ NoDup (ids (stats_of (file (snd (delete_player player_tag w)))))
  /\ NoDup (ids (stats_of (file (snd (delete_all_players w))))).
Proof.
  intros Hnodup. repeat split.
  - rewrite save_to_leaderboard_run.
    assert (Hup : NoDup (ids (Player.upsert self (stats_of (file w))))).
    { rewrite ids_upsert.
      destruct (Player.find_user (Player.user_id self) (stats_of (file w)))
        eqn:Hfind; [exact Hnodup |].
      apply NoDup_app; [exact Hnodup | repeat constructor; intros [] |].
      intros tag Hin [<- | []].
      apply find_user_in_ids in Hin. congruence. }
    destruct (file w) eqn:Hfile; cbn [snd file stats_of];
      [exact Hup | rewrite Hfile; constructor | exact Hup].
  - rewrite reset_fisher_run.
    destruct (file w) as [| | stats] eqn:Hfile;
      [cbn [snd]; rewrite Hfile; constructor
      | cbn [snd]; rewrite Hfile; constructor |].
    destruct (reset_loop player_tag state stats) as [stats' |] eqn:Hloop;
      [| cbn [snd]; rewrite Hfile; exact Hnodup].
    cbn [snd file stats_of]. rewrite (reset_loop_ids _ _ _ _ Hloop).
    exact Hnodup.
  - rewrite delete_player_run.
    destruct (has_player player_tag (file w)) eqn:Hhas; [| exact Hnodup].
    cbn [snd file stats_of].
    assert (Hfind : Player.find_user player_tag (stats_of (file w)) <> None).
    { unfold has_player in Hhas. destruct (file w) as [| | stats];
        try discriminate. cbn.
      destruct (Player.find_user player_tag stats); discriminate. }
    destruct (ids_drop_user _ _ Hfind) as (before & after & Hids & Hdrop).
    rewrite Hdrop. rewrite Hids in Hnodup.
    apply NoDup_remove_1 in Hnodup. exact Hnodup.
  - rewrite delete_all_players_run.
    destruct (file w) eqn:Hfile; cbn [snd file stats_of];
      [rewrite Hfile; constructor | rewrite Hfile; constructor | constructor].
Qed.

Lemma writes_keep_ids_distinct_witness :
  NoDup (ids (stats_of
                (file (snd (Player.save_to_leaderboard
                              (Player.mk 42 120 80 "Minnow")
                              {| rng := tape [];
                                 file := Document [mkEntry 7 5 1200 "Guppy"] |})))))
  /\ NoDup (ids (stats_of
                   (file (snd (reset_fisher 7 "level"
                                 {| rng := tape [];
                                    file := Document
                                              [mkEntry 7 5 1200 "Guppy"] |})))))
  /\ NoDup (ids (stats_of
                   (file (snd (delete_player 7
                                 {| rng := tape [];
                                    file := Document
                                              [mkEntry 7 5 1200 "Guppy"] |})))))
  /\ NoDup (ids (stats_of
                   (file (snd (delete_all_players
                                 {| rng := tape [];
                                    file := Document
                                              [mkEntry 7 5 1200 "Guppy"] |}))))).
Proof.
  apply (writes_keep_ids_distinct
           {| rng := tape []; file := Document [mkEntry 7 5 1200 "Guppy"] |}
           (Player.mk 42 120 80 "Minnow") 7 "level").
  repeat constructor. intros [].
Defined.

(** * The leaderboard *)

Lemma insert_desc_perm (x : Z * Z) (l : list (Z * Z)) :
  Permutation (insert_desc x l) (x :: l).
Proof.
  induction l as [| y rest IH]; [apply Permutation_refl |].
  cbn. destruct (snd x <? snd y); [| apply Permutation_refl].
  apply perm_trans with (y :: x :: rest);
    [apply perm_skip; exact IH | apply perm_swap].
Qed.

Lemma sort_desc_perm (l : list (Z * Z)) : Permutation (sort_desc l) l.
Proof.
  induction l as [| x rest IH]; [apply perm_nil |].
  cbn. apply perm_trans with (x :: sort_desc rest);
    [apply insert_desc_perm | apply perm_skip; exact IH].
Qed.

Lemma insert_desc_sorted (x : Z * Z) (l : list (Z * Z)) :
  StronglySorted (fun a b => snd b <= snd a) l ->
  StronglySorted (fun a b => snd b <= snd a) (insert_desc x l).
Proof.
  induction l as [| y rest IH]; intros Hsorted.
  - cbn. constructor; constructor.
  - cbn. inversion Hsorted as [| ? ? Hrest Hall]; subst.
    destruct (snd x <? snd y) eqn:Hlt.
    + apply Z.ltb_lt in Hlt. constructor; [apply IH; exact Hrest |].
      apply (Permutation_Forall (Permutation_sym (insert_desc_perm x rest))).
      constructor; [lia | exact Hall].
    + apply Z.ltb_ge in Hlt. constructor; [exact Hsorted |].
      constructor; [exact Hlt |].
      eapply Forall_impl; [| exact Hall]. cbn. intros; lia.
Qed.

Lemma sort_desc_sorted (l : list (Z * Z)) :
  StronglySorted (fun a b => snd b <= snd a) (sort_desc l).
Proof.
  induction l as [| x rest IH]; [constructor |].
  cbn. apply insert_desc_sorted. exact IH.
Qed.

Lemma insert_desc_stable (k : Z) (x : Z * Z) (l : list (Z * Z)) :
  filter (fun p => snd p =? k) (insert_desc x l)
  = filter (fun p => snd p =? k) (x :: l).
Proof.
  induction l as [| y rest IH]; [reflexivity |].
  cbn [insert_desc]. destruct (snd x <? snd y) eqn:Hlt; [| reflexivity].
  apply Z.ltb_lt in Hlt. cbn [filter] in *. rewrite IH.
  destruct (snd x =? k) eqn:Hx; [| reflexivity].
  apply Z.eqb_eq in Hx.
  replace (snd y =? k) with false by (symmetry; apply Z.eqb_neq; lia).
  reflexivity.
Qed.

Lemma sort_desc_stable (k : Z) (l : list (Z * Z)) :
  filter (fun p => snd p =? k) (sort_desc l) = filter (fun p => snd p =? k) l.
Proof.
  induction l as [| x rest IH]; [reflexivity |].
  cbn [sort_desc fold_right]. fold (sort_desc rest).
  rewrite insert_desc_stable. cbn [filter]. rewrite IH. reflexivity.
Qed.

Lemma sort_leaderboard_run (state : string) (w : World) :
  sort_leaderboard state w =
  match file w with
  | Absent => (Raise FileNotFoundError, w)
  | Garbage => (Raise JSONDecodeError, w)
  | Document stats =>
      (Return
         (if (lower state =? "money")%string then
            sort_desc (map (fun user => (j_user_id user, j_money user)) stats)
          else if ((lower state =? "level") || (lower state =? "levels"))%string
               then sort_desc
                      (map (fun user => (j_user_id user, j_level user)) stats)
               else []), w)
  end.
Proof.
  unfold sort_leaderboard, bind, json_load, get_file, raise, ret.
  cbn. destruct (file w) as [| | stats]; try reflexivity.
  destruct (lower state =? "money")%string; [reflexivity |].
  destruct ((lower state =? "level") || (lower state =? "levels"))%string;
    reflexivity.
Qed.

(** X8. For "money", "level" or "levels" in any letter case, the leaderboard
    lists every entry of the ledger once, as the pair of its id and that
    field, in descending order of the field, entries with equal values in
    the order the ledger has them; nothing is written. *)
Theorem sort_leaderboard_sorted (state : string) (w : World)
    (stats : list Entry) :
  file w = Document stats ->
  valid_state state = true ->
  exists sorted,
    sort_leaderboard state w = (Return sorted, w)
    /\ Permutation sorted
         (map (fun user =>
                 (j_user_id user,
                  if (lower state =? "money")%string
                  then j_money user else j_level user)) stats)
    /\ StronglySorted (fun a b => snd b <= snd a) sorted
    /\ forall k,
         filter (fun p => snd p =? k) sorted
         = filter (fun p => snd p =? k)
             (map (fun user =>
                     (j_user_id user,
                      if (lower state =? "money")%string
                      then j_money user else j_level user)) stats).
Proof.
  unfold valid_state. intros Hfile Hvalid.
  rewrite sort_leaderboard_run, Hfile.
  destruct (lower state =? "money")%string.
  - eexists. split; [reflexivity |].
    split; [apply sort_desc_perm |]. split; [apply sort_desc_sorted |].
    intros k. apply sort_desc_stable.
  - cbn [orb] in Hvalid. rewrite Hvalid.
    eexists. split; [reflexivity |].
    split; [apply sort_desc_perm |]. split; [apply sort_desc_sorted |].
    intros k. apply sort_desc_stable.
Qed.

Lemma sort_leaderboard_sorted_witness :
  exists sorted,
    sort_leaderboard "Level"
      {| rng := tape [];
         file := Document [mkEntry 3 9 20 "Minnow"; mkEntry 7 5 1200 "Guppy";
                           mkEntry 8 0 20 "Minnow"] |}
    = (Return sorted,
       {| rng := tape [];
          file := Document [mkEntry 3 9 20 "Minnow"; mkEntry 7 5 1200 "Guppy";
                            mkEntry 8 0 20 "Minnow"] |})
    /\ Permutation sorted [(3, 20); (7, 1200); (8, 20)]
    /\ StronglySorted (fun a b => snd b <= snd a) sorted
    /\ forall k,
         filter (fun p => snd p =? k) sorted
         = filter (fun p => snd p =? k) [(3, 20); (7, 1200); (8, 20)].
Proof.
  apply (sort_leaderboard_sorted "Level"
           {| rng := tape [];
              file := Document [mkEntry 3 9 20 "Minnow";
                                mkEntry 7 5 1200 "Guppy";
                                mkEntry 8 0 20 "Minnow"] |}
           [mkEntry 3 9 20 "Minnow"; mkEntry 7 5 1200 "Guppy";
            mkEntry 8 0 20 "Minnow"]);
    reflexivity.
Defined.

(** X9. [sort_leaderboard] reads the file outside any [try]: on a missing file
    it raises [FileNotFoundError], on an undecodable one [JSONDecodeError];
    for any other field name than the three it knows it returns the empty
    list. *)
Theorem sort_leaderboard_edges (state : string) (w : World) :
  (file w = Absent ->
   sort_leaderboard state w = (Raise FileNotFoundError, w))
  /\ (file w = Garbage ->
      sort_leaderboard state w = (Raise JSONDecodeError, w))
  /\ (forall stats, file w = Document stats -> valid_state state = false ->
        sort_leaderboard state w = (Return [], w)).
Proof.
  rewrite sort_leaderboard_run. repeat split.
  - intros ->. reflexivity.
  - intros ->. reflexivity.
  - intros stats -> Hvalid. unfold valid_state in Hvalid.
    apply orb_false_iff in Hvalid as [Hvalid Hlevels].
    apply orb_false_iff in Hvalid as [Hmoney Hlevel].
    rewrite Hmoney, Hlevel, Hlevels. reflexivity.
Qed.

Lemma sort_leaderboard_edges_witness :
  sort_leaderboard "money" {| rng := tape []; file := Absent |}
  = (Raise FileNotFoundError, {| rng := tape []; file := Absent |})
  /\ sort_leaderboard "rank"
       {| rng := tape []; file := Document [mkEntry 7 5 1200 "Guppy"] |}
     = (Return [],
        {| rng := tape []; file := Document [mkEntry 7 5 1200 "Guppy"] |}).
Proof.
  split.
  - apply (proj1 (sort_leaderboard_edges "money"
                    {| rng := tape []; file := Absent |})).
    reflexivity.
  - apply (proj2 (proj2 (sort_leaderboard_edges "rank"
                           {| rng := tape [];
                              file := Document [mkEntry 7 5 1200 "Guppy"] |}))
             [mkEntry 7 5 1200 "Guppy"]); reflexivity.
Defined.

(** X10. The [leaderboard] command sorts before it looks at the filter: with no
    players file it raises whatever the filter, the "Invalid filter" reply
    needs a readable file, and over an empty ledger a valid filter gives
    the embed with "No data available". *)
Theorem leaderboard_edges (state : string) (w : World) :
  (file w = Absent -> leaderboard state w = (Raise FileNotFoundError, w))
  /\ (forall stats, file w = Document stats -> valid_state state = false ->
        leaderboard state w
        = (Return (Plain "Invalid filter. Please use 'money' or 'level'."), w))
  /\ (file w = Document [] -> valid_state state = true ->
      leaderboard state w
      = (Return
           (Rich "Leaderboard"
              ("Here is the current leaderboard sorted by "
               ++ capitalize state ++ " : ")
              [("Top Players", "No data available")]), w)).
Proof.
  unfold leaderboard, bind. rewrite sort_leaderboard_run.
  unfold valid_state. repeat split.
  - intros ->. reflexivity.
  - intros stats -> Hvalid.
    apply orb_false_iff in Hvalid as [Hvalid Hlevels].
    apply orb_false_iff in Hvalid as [Hmoney Hlevel].
    rewrite Hmoney, Hlevel, Hlevels. reflexivity.
  - intros -> Hvalid.
    destruct (lower state =? "money")%string; [reflexivity |].
    cbn [orb] in Hvalid. rewrite Hvalid. reflexivity.
Qed.

Lemma leaderboard_edges_witness :
  leaderboard "rank" {| rng := tape []; file := Absent |}
  = (Raise FileNotFoundError, {| rng := tape []; file := Absent |})
  /\ leaderboard "rank"
       {| rng := tape []; file := Document [mkEntry 7 5 1200 "Guppy"] |}
     = (Return (Plain "Invalid filter. Please use 'money' or 'level'."),
        {| rng := tape []; file := Document [mkEntry 7 5 1200 "Guppy"] |})
  /\ leaderboard "mONEY" {| rng := tape []; file := Document [] |}
     = (Return
          (Rich "Leaderboard"
             "Here is the current leaderboard sorted by Money : "
             [("Top Players", "No data available")]),
        {| rng := tape []; file := Document [] |}).
Proof.
  split; [| split].
  - apply (proj1 (leaderboard_edges "rank"
                    {| rng := tape []; file := Absent |})).
    reflexivity.
  - apply (proj1 (proj2 (leaderboard_edges "rank"
                           {| rng := tape [];
                              file := Document [mkEntry 7 5 1200 "Guppy"] |}))
             [mkEntry 7 5 1200 "Guppy"]); reflexivity.
  - apply (proj2 (proj2 (leaderboard_edges "mONEY"
                           {| rng := tape []; file := Document [] |})));
      reflexivity.
Defined.

(** * Progression: the league rises with the experience *)

(** Against a rising list of thresholds, the tests [t <= e] are true up
    to some place and false from there on. *)
Lemma thresholds_reached (e : Z) (ts : list Z) :
  StronglySorted Z.le ts ->
  exists k,
    (k <= List.length ts)%nat
    /\ List.length (filter (fun t => t <=? e) ts) = k
    /\ map (fun t => t <=? e) ts
       = (repeat true k ++ repeat false (List.length ts - k))%list.
Proof.
  induction ts as [| t rest IH]; intros Hsorted.
  - exists 0%nat. split; [apply le_n |]. split; reflexivity.
  - inversion Hsorted as [| ? ? Hrest Hall]; subst.
    destruct (t <=? e) eqn:Ht.
    + destruct (IH Hrest) as (k & Hk & Hlen & Hmap).
      exists (S k). split; [cbn; lia |].
      cbn. rewrite Ht, Hmap. cbn. rewrite Hlen. split; reflexivity.
    + exists 0%nat. split; [lia |].
      cbn [filter map repeat app List.length Nat.sub]. rewrite Ht.
      apply Z.leb_gt in Ht. clear IH Hsorted Hrest.
      induction Hall as [| x l Hx Hl IHl]; [split; reflexivity |].
      destruct IHl as [IHlen IHmap]. injection IHmap as IHmap.
      cbn [filter map repeat List.length].
      replace (x <=? e) with false by (symmetry; apply Z.leb_gt; lia).
      rewrite IHmap. split; [exact IHlen | reflexivity].
Qed.

Lemma thresholds_sorted : StronglySorted Z.le thresholds.
Proof.
  unfold thresholds.
  repeat (constructor; [| repeat (constructor; [discriminate |]); constructor]).
  constructor.
Qed.

(** The chain of guards of [level_check], over any thirteen values. *)
Lemma guards_reached {A} (e : Z) (a0 a1 a2 a3 a4 a5 a6 a7 a8 a9 a10 a11 a12 : A) :
  (if (0 <? e) && (e <? 1000) then a1
   else if (1000 <=? e) && (e <? 3000) then a2
   else if (3000 <=? e) && (e <? 5000) then a3
   else if (5000 <=? e) && (e <? 10000) then a4
   else if (10000 <=? e) && (e <? 15000) then a5
   else if (15000 <=? e) && (e <? 20000) then a6
   else if (20000 <=? e) && (e <? 30000) then a7
   else if (30000 <=? e) && (e <? 40000) then a8
   else if (40000 <=? e) && (e <? 50000) then a9
   else if (50000 <=? e) && (e <? 70000) then a10
   else if (70000 <=? e) && (e <? 100000) then a11
   else if 100000 <=? e then a12
   else a0)
  = nth (reached e) [a0; a1; a2; a3; a4; a5; a6; a7; a8; a9; a10; a11; a12] a0.
Proof.
  replace (0 <? e) with (1 <=? e)
    by (destruct (Z.leb_spec 1 e), (Z.ltb_spec 0 e); try reflexivity; lia).
  rewrite !Z.ltb_antisym.
  destruct (thresholds_reached e thresholds thresholds_sorted)
    as (k & Hk & Hlen & Hmap).
  unfold reached. rewrite Hlen. clear Hlen.
  unfold thresholds in Hk, Hmap. cbn [map List.length] in Hk, Hmap.
  do 13 (destruct k as [| k];
         [cbn in Hmap; injection Hmap as H1 H2 H3 H4 H5 H6 H7 H8 H9 H10 H11 H12;
          rewrite H1, H2, H3, H4, H5, H6, H7, H8, H9, H10, H11, H12;
          reflexivity |]).
  lia.
Qed.

Lemma reached_bound (e : Z) : (reached e <= 12)%nat.
Proof.
  unfold reached.
  etransitivity; [apply filter_length_le | apply le_n].
Qed.

Lemma rank_of_reached (e : Z) : rank_of e = nth (reached e) leagues "".
Proof.
  unfold rank_of, Player.level_check, Player.set_league.
  cbn [Player.league Player.level].
  rewrite (nth_indep leagues "" "Unranked")
    by (pose proof (reached_bound e);
        change (List.length leagues) with 13%nat; lia).
  apply guards_reached.
Qed.

Lemma reached_monotone (e1 e2 : Z) :
  e1 <= e2 -> (reached e1 <= reached e2)%nat.
Proof.
  intros Hle. unfold reached.
  induction thresholds as [| t rest IH]; [apply le_n |].
  cbn [filter].
  destruct (t <=? e1) eqn:H1.
  - apply Z.leb_le in H1.
    replace (t <=? e2) with true by (symmetry; apply Z.leb_le; lia).
    cbn. lia.
  - destruct (t <=? e2); cbn; lia.
Qed.

Lemma index_of_leagues (i : nat) :
  (i <= 12)%nat -> index_of (nth i leagues "") leagues = i.
Proof.
  intros Hi.
  do 13 (destruct i as [| i]; [reflexivity |]). lia.
Qed.

(** X11. The league of an experience is the n-th of the thirteen leagues, n
    being the number of thresholds the experience has reached; so more
    experience never gives a lower league. *)
Theorem rank_of_monotone (e1 e2 : Z) :
  e1 <= e2 ->
  (index_of (rank_of e1) leagues <= index_of (rank_of e2) leagues)%nat
  /\ rank_of e1 = nth (reached e1) leagues ""
  /\ In (rank_of e1) leagues.
Proof.
  intros Hle. rewrite !rank_of_reached.
  rewrite !index_of_leagues by apply reached_bound.
  split; [apply reached_monotone; exact Hle |]. split; [reflexivity |].
  apply nth_In. pose proof (reached_bound e1) as Hbound.
  change (List.length leagues) with 13%nat. lia.
Qed.

Lemma rank_of_monotone_witness :
  (index_of (rank_of 2999) leagues <= index_of (rank_of 3000) leagues)%nat
  /\ rank_of 2999 = nth (reached 2999) leagues ""
  /\ In (rank_of 2999) leagues.
Proof.
  apply (rank_of_monotone 2999 3000). lia.
Defined.

(** * Rolls *)

Ltac roll_in_range :=
  match goal with
  | |- context [?k mod ?m] =>
      pose proof (Z.mod_pos_bound k m ltac:(lia)); lia
  | _ => lia
  end.

Lemma value_loot_algo_run (self : Loot.t) (w : World) :
  exists v w1,
    Loot.value_loot_algo self w = (Return (v, Loot.set_value self v), w1)
    /\ file w1 = file w
    /\ 0 <= v <= 10000.
Proof.
  unfold Loot.value_loot_algo, bind, random.randint, random.draw, ret.
  repeat match goal with
         | |- context [if ?c then _ else _] => destruct c
         end;
    (eexists; eexists; split; [reflexivity |]; split; [reflexivity |];
     roll_in_range).
Qed.

Lemma xp_loot_algo_run (self : Loot.t) (w : World) :
  exists xp w1,
    Loot.xp_loot_algo self w = (Return (xp, Loot.set_xp_loot self xp), w1)
    /\ file w1 = file w
    /\ 0 <= xp <= 5000.
Proof.
  unfold Loot.xp_loot_algo, bind, random.randint, random.draw, ret.
  repeat match goal with
         | |- context [if ?c then _ else _] => destruct c
         end;
    (eexists; eexists; split; [reflexivity |]; split; [reflexivity |];
     roll_in_range).
Qed.

Lemma weight_algo_run (self : Loot.t) (w : World) :
  exists wt w1,
    Loot.weight_algo self w = (Return (wt, Loot.set_weight self wt), w1)
    /\ file w1 = file w
    /\ (wt = zero \/ exists k, 10 <= k <= 6000 /\ wt = literal k 100).
Proof.
  unfold Loot.weight_algo, bind, random.uniform_round2, random.randint,
    random.draw, ret.
  repeat match goal with
         | |- context [if ?c then _ else _] => destruct c
         end;
    (eexists; eexists; split; [reflexivity |]; split; [reflexivity |]);
    try (right; eexists; split; [| reflexivity]; roll_in_range).
  left. reflexivity.
Qed.

(** The rounding step of every operation keeps the sign it is given. *)
Lemma binary_round_aux_sign (s : bool) (m e : Z) (l : location) :
  match binary_round_aux prec emax s m e l with
  | S754_zero s' | S754_infinity s' | S754_finite s' _ _ => s' = s
  | S754_nan => True
  end.
Proof.
  unfold binary_round_aux.
  destruct (shr_fexp prec emax m e l) as [mrs' e'].
  destruct (shr_fexp prec emax _ e' loc_Exact) as [mrs'' e''].
  destruct (shr_m mrs''); [reflexivity | | exact I].
  destruct (e'' <=? emax - prec); reflexivity.
Qed.

Lemma binary_round_aux_not_negative (m e : Z) (l : location) :
  not_negative (binary_round_aux prec emax false m e l) = true.
Proof.
  pose proof (binary_round_aux_sign false m e l) as Hsign.
  destruct (binary_round_aux prec emax false m e l); cbn;
    try rewrite Hsign; reflexivity.
Qed.

Lemma of_int_not_negative (n : Z) : 0 <= n -> not_negative (of_int n) = true.
Proof.
  intros Hn. unfold of_int, binary_normalize.
  destruct n as [| p | p]; [reflexivity | | lia].
  unfold binary_round.
  destruct (shl_align p 0 _) as [mz ez].
  apply binary_round_aux_not_negative.
Qed.

Lemma mul_not_negative (x y : float) :
  not_negative x = true -> not_negative y = true ->
  not_negative (mul x y) = true.
Proof.
  unfold mul, SFmul.
  destruct x as [sx | sx | | sx mx ex], y as [sy | sy | | sy my ey];
    cbn [not_negative]; intros Hx Hy; try reflexivity;
    try (apply negb_true_iff in Hx; subst sx);
    try (apply negb_true_iff in Hy; subst sy);
    try reflexivity.
  apply binary_round_aux_not_negative.
Qed.

Lemma div_not_negative (x : float) (my : positive) (ey : Z) :
  not_negative x = true ->
  not_negative (div x (S754_finite false my ey)) = true.
Proof.
  unfold div, SFdiv.
  destruct x as [sx | sx | | sx mx ex]; cbn [not_negative]; intros Hx;
    try reflexivity;
    try (apply negb_true_iff in Hx; subst sx); try reflexivity.
  destruct (SFdiv_core_binary prec emax (Zpos mx) ex (Zpos my) ey)
    as [[mz ez] lz].
  apply binary_round_aux_not_negative.
Qed.

Lemma two_finite : of_int 2 = S754_finite false 4503599627370496 (-51).
Proof. vm_compute. reflexivity. Qed.

Lemma hundred_finite : of_int 100 = S754_finite false 7036874417766400 (-46).
Proof. vm_compute. reflexivity. Qed.

Lemma round_half_even_not_negative (m : positive) (e : Z) :
  0 <= round_half_even false m e.
Proof.
  destruct e as [| p | p].
  - cbn. lia.
  - unfold round_half_even. apply Z.shiftl_nonneg. lia.
  - assert (Hd : 0 < Z.shiftl 1 (Zpos p)).
    { rewrite Z.shiftl_1_l. apply Z.pow_pos_nonneg; lia. }
    assert (Hq : 0 <= Zpos m / Z.shiftl 1 (Zpos p))
      by (apply Z.div_pos; lia).
    unfold round_half_even. cbv zeta.
    set (q := Zpos m / Z.shiftl 1 (Zpos p)) in *. clearbody q.
    destruct (2 * (Zpos m mod Z.shiftl 1 (Zpos p)) ?= Z.shiftl 1 (Zpos p));
      [destruct (Z.even q) | |]; lia.
Qed.

Lemma round_not_negative (x : float) (n : Z) :
  not_negative x = true -> PyFloat.round x = Some n -> 0 <= n.
Proof.
  destruct x as [s | s | | s m e]; cbn [not_negative PyFloat.round];
    intros Hx Hround; try discriminate.
  - injection Hround as <-. lia.
  - apply negb_true_iff in Hx. subst s. injection Hround as <-.
    apply round_half_even_not_negative.
Qed.

(** The reward of a catch is never negative. *)
Lemma reward_not_negative (xp : Z) (wt : float) (cv : Z) :
  0 <= xp -> not_negative wt = true ->
  PyFloat.round (reward xp wt) = Some cv -> 0 <= cv.
Proof.
  intros Hxp Hwt. apply round_not_negative. unfold reward.
  rewrite two_finite. apply div_not_negative.
  apply mul_not_negative; [apply of_int_not_negative; exact Hxp | exact Hwt].
Qed.

Lemma literal_not_negative (k : Z) :
  0 <= k -> not_negative (literal k 100) = true.
Proof.
  intros Hk. unfold literal.
  rewrite hundred_finite. apply div_not_negative.
  apply of_int_not_negative. exact Hk.
Qed.

Lemma rarities_eq :
  rarities = ["Trash"; "Common"; "Uncommon"; "Rare"; "Epic"; "Supreme";
              "Mythical"; "Legendary"].
Proof. reflexivity. Qed.

(** X12. A rarity that is none of the eight rolls nothing: value 0, experience
    0 and weight 0.0, without a draw from the generator, and the reward of
    such a roll is 0. *)
Theorem unknown_rarity_rolls_zero (self : Loot.t) (w : World) :
  ~ In (Loot.rarity self) rarities ->
  Loot.value_loot_algo self w = (Return (0, Loot.set_value self 0), w)
  /\ Loot.xp_loot_algo self w = (Return (0, Loot.set_xp_loot self 0), w)
  /\ Loot.weight_algo self w = (Return (zero, Loot.set_weight self zero), w)
  /\ PyFloat.round (reward 0 zero) = Some 0.
Proof.
  rewrite rarities_eq. intros Hnot.
  assert (Hneq : forall r, In r ["Trash"; "Common"; "Uncommon"; "Rare";
                                 "Epic"; "Supreme"; "Mythical"; "Legendary"] ->
                           (Loot.rarity self =? r)%string = false).
  { intros r Hin. apply String.eqb_neq. intros Heq. apply Hnot.
    rewrite Heq. exact Hin. }
  unfold Loot.value_loot_algo, Loot.xp_loot_algo, Loot.weight_algo.
  rewrite !Hneq by (cbn; tauto).
  repeat split.
Qed.

Lemma unknown_rarity_rolls_zero_witness :
  Loot.value_loot_algo (Loot.__init__ "Boot" "Junk" "" 0 0 zero)
    {| rng := tape [5]; file := Absent |}
  = (Return (0, Loot.set_value (Loot.__init__ "Boot" "Junk" "" 0 0 zero) 0),
     {| rng := tape [5]; file := Absent |})
  /\ Loot.xp_loot_algo (Loot.__init__ "Boot" "Junk" "" 0 0 zero)
       {| rng := tape [5]; file := Absent |}
     = (Return (0, Loot.set_xp_loot
                     (Loot.__init__ "Boot" "Junk" "" 0 0 zero) 0),
        {| rng := tape [5]; file := Absent |})
  /\ Loot.weight_algo (Loot.__init__ "Boot" "Junk" "" 0 0 zero)
       {| rng := tape [5]; file := Absent |}
     = (Return (zero, Loot.set_weight
                        (Loot.__init__ "Boot" "Junk" "" 0 0 zero) zero),
        {| rng := tape [5]; file := Absent |})
  /\ PyFloat.round (reward 0 zero) = Some 0.
Proof.
  apply (unknown_rarity_rolls_zero
           (Loot.__init__ "Boot" "Junk" "" 0 0 zero)
           {| rng := tape [5]; file := Absent |}).
  rewrite rarities_eq. cbn.
  intros [H | [H | [H | [H | [H | [H | [H | [H | []]]]]]]]]; discriminate H.
Defined.

(** * Sampling a catch *)

Lemma candidates_shipped (rarity : string) :
  In rarity rarities -> candidates rarity CATCHES <> [].
Proof.
  rewrite rarities_eq. cbn [In].
  intros [<- | [<- | [<- | [<- | [<- | [<- | [<- | [<- | []]]]]]]]];
    vm_compute; discriminate.
Qed.

Lemma sampled_rarity (w : World) :
  exists rarity,
    select_rarity RARITY_PROBABILITIES (random.unit_float (rng w 0%nat)) zero
    = Some rarity
    /\ In rarity rarities.
Proof.
  destruct (select_rarity_configured (random.unit_float (rng w 0%nat))
              (proj2 (unit_float_range _))) as (rarity & Hsel).
  exists rarity. split; [exact Hsel |].
  exact (select_rarity_in _ _ _ _ Hsel).
Qed.

Lemma fishing_none (catches : list Loot.t) (w : World) (rarity : string) :
  select_rarity RARITY_PROBABILITIES (random.unit_float (rng w 0%nat)) zero
  = Some rarity ->
  candidates rarity catches = [] ->
  fishing catches w = (Return None, random.advance w).
Proof.
  intros Hsel Hnone. rewrite fishing_run. revert Hsel.
  generalize (select_rarity RARITY_PROBABILITIES
                (random.unit_float (rng w 0%nat)) zero).
  intros selected ->. rewrite Hnone. reflexivity.
Qed.

Lemma fishing_some (catches : list Loot.t) (w : World) (rarity : string) :
  select_rarity RARITY_PROBABILITIES (random.unit_float (rng w 0%nat)) zero
  = Some rarity ->
  candidates rarity catches <> [] ->
  exists loot,
    fishing catches w
    = (Return (Some loot), random.advance (random.advance w))
    /\ In loot catches
    /\ Loot.rarity loot = rarity.
Proof.
  intros Hsel Hcand. rewrite fishing_run. revert Hsel.
  generalize (select_rarity RARITY_PROBABILITIES
                (random.unit_float (rng w 0%nat)) zero).
  intros selected ->.
  destruct (candidates rarity catches) as [| x rest] eqn:Hlist;
    [contradiction Hcand; reflexivity |].
  destruct (choice_run x rest (random.advance w)) as (loot & Hloot & Hrun).
  exists loot. unfold bind. rewrite Hrun.
  split; [reflexivity |].
  rewrite <- Hlist in Hloot.
  split; [| exact (candidates_rarity _ _ _ Hloot)].
  unfold candidates in Hloot. apply filter_In in Hloot as [Hcat _].
  exact Hcat.
Qed.


(** X13. With the shipped table and catalog, [fishing] always returns an item:
    it never raises and never returns [None]; the item is one of the
    catalog, of the rarity the walk selected, and two draws were used. *)
Theorem fishing_shipped (w : World) :
  exists loot,
    fishing CATCHES w
    = (Return (Some loot), random.advance (random.advance w))
    /\ In loot CATCHES
    /\ In (Loot.rarity loot) rarities
    /\ select_rarity RARITY_PROBABILITIES
         (random.unit_float (rng w 0%nat)) zero = Some (Loot.rarity loot).
Proof.
  destruct (sampled_rarity w) as (rarity & Hsel & Hin).
  destruct (fishing_some CATCHES w rarity Hsel (candidates_shipped rarity Hin))
    as (loot & Hrun & Hcat & Hrarity).
  exists loot. rewrite Hrarity.
  split; [exact Hrun |]. split; [exact Hcat |]. split; [exact Hin | exact Hsel].
Qed.

(** X14. Over any catalog passed to [fishing]: it never raises; an item it
    returns is one of the catalog and has the rarity the walk selected,
    and two draws were used; [None] means that the selected rarity has no
    item in the catalog, and then only one draw was used. *)
Theorem fishing_outcomes (catches : list Loot.t) (w : World) :
  (forall e w', fishing catches w <> (Raise e, w'))
  /\ (forall loot w',
        fishing catches w = (Return (Some loot), w') ->
        In loot catches
        /\ select_rarity RARITY_PROBABILITIES
             (random.unit_float (rng w 0%nat)) zero
           = Some (Loot.rarity loot)
        /\ w' = random.advance (random.advance w))
  /\ (forall w',
        fishing catches w = (Return None, w') ->
        exists rarity,
          select_rarity RARITY_PROBABILITIES
            (random.unit_float (rng w 0%nat)) zero
          = Some rarity
          /\ candidates rarity catches = []
          /\ w' = random.advance w).
Proof.
  destruct (sampled_rarity w) as (rarity & Hsel & _).
  destruct (candidates rarity catches) as [| x rest] eqn:Hlist.
  - rewrite (fishing_none catches w rarity Hsel Hlist).
    split; [intros e w' H; discriminate H |].
    split; [intros loot w' H; discriminate H |].
    intros w' [= <-]. exists rarity.
    split; [exact Hsel |]. split; [exact Hlist | reflexivity].
  - destruct (fishing_some catches w rarity Hsel)
      as (loot & Hrun & Hcat & Hrarity);
      [rewrite Hlist; discriminate |].
    rewrite Hrun.
    split; [intros e w' H; discriminate H |].
    split; [| intros w' H; discriminate H].
    intros loot' w' [= <- <-]. rewrite Hrarity.
    split; [exact Hcat |]. split; [exact Hsel | reflexivity].
Qed.

Lemma fishing_outcomes_witness :
  exists rarity,
    select_rarity RARITY_PROBABILITIES
      (random.unit_float (rng {| rng := tape [0]; file := Absent |} 0%nat))
      zero
    = Some rarity
    /\ candidates rarity [] = []
    /\ random.advance {| rng := tape [0]; file := Absent |}
       = random.advance {| rng := tape [0]; file := Absent |}.
Proof.
  apply (proj2 (proj2 (fishing_outcomes [] {| rng := tape [0]; file := Absent |}))
           (random.advance {| rng := tape [0]; file := Absent |})).
  vm_compute. reflexivity.
Defined.

(** * The [fish] command, on every input *)

Lemma fish_unfold (catches : list Loot.t) (user_id : Z) (w : World) :
  fish catches user_id w =
  match fishing catches w with
  | (Raise e, w1) => (Raise e, w1)
  | (Return None, w1) => (Raise AttributeError, w1)
  | (Return (Some loot), w1) =>
      match Loot.weight_algo loot w1 with
      | (Raise e, w2) => (Raise e, w2)
      | (Return (wt, l1), w2) =>
          match Loot.xp_loot_algo l1 w2 with
          | (Raise e, w3) => (Raise e, w3)
          | (Return (xp, l2), w3) =>
              match PyFloat.round (reward xp wt) with
              | None =>
                  (Raise match reward xp wt with
                         | S754_nan => ValueError
                         | _ => OverflowError
                         end, w3)
              | Some cv =>
                  match Loot.value_loot_algo l2 w3 with
                  | (Raise e, w4) => (Raise e, w4)
                  | (Return (v, l3), w4) =>
                      match file w4 with
                      | Garbage => (Raise JSONDecodeError, w4)
                      | f =>
                          (Return (Embed l3 wt cv v),
                           {| rng := rng w4;
                              file := Document
                                        (Player.upsert
                                           (Player.level_check
                                              (credit (loaded user_id f) v cv))
                                           (stats_of f)) |})
                      end
                  end
              end
          end
      end
  end.
Proof.
  unfold fish, bind at 1.
  destruct (fishing catches w) as [[e | [loot |]] w1];
    [reflexivity | | reflexivity].
  unfold call, bind.
  destruct (Loot.weight_algo loot w1) as [[e | [wt l1]] w2]; [reflexivity |].
  cbv beta iota delta [ret].
  destruct (Loot.xp_loot_algo l1 w2) as [[e | [xp l2]] w3]; [reflexivity |].
  cbv beta iota. unfold round_int.
  destruct (PyFloat.round (reward xp wt)) as [cv |].
  - cbv beta iota delta [ret].
    destruct (Loot.value_loot_algo l2 w3) as [[e | [v l3]] w4];
      [reflexivity |].
    cbv beta iota. fold (load_player user_id). rewrite load_player_run.
    rewrite save_to_leaderboard_run.
    destruct (file w4); reflexivity.
  - destruct (reward xp wt); reflexivity.
Qed.




Lemma loaded_upsert_same (self : Player.t) (stats : list Entry) :
  loaded (Player.user_id self) (Document (Player.upsert self stats)) = self.
Proof.
  unfold loaded. cbn [stats_of]. rewrite find_user_upsert_same.
  destruct self. reflexivity.
Qed.

Lemma loaded_upsert_other (self : Player.t) (other : Z) (f : File) :
  other <> Player.user_id self ->
  loaded other (Document (Player.upsert self (stats_of f))) = loaded other f.
Proof.
  intros Hne. unfold loaded. cbn [stats_of].
  rewrite (find_user_upsert_other self other _ Hne). reflexivity.
Qed.

(** X15. Whenever [fish] replies, the reply is the embed, never the "No catch
    available" message; the file was decodable or missing; the player's
    level grew by the value shown, the money by the reward shown, neither
    of them negative; the league stored is the one of the new level; and
    nobody else's record changed. *)
Theorem fish_reply (catches : list Loot.t) (user_id : Z) (w w' : World)
    (reply : Reply) :
  fish catches user_id w = (Return reply, w') ->
  exists catch wt cv v,
    reply = Embed catch wt cv v
    /\ 0 <= v /\ 0 <= cv
    /\ file w <> Garbage
    /\ Player.level (loaded user_id (file w'))
       = Player.level (loaded user_id (file w)) + v
    /\ Player.money (loaded user_id (file w'))
       = Player.money (loaded user_id (file w)) + cv
    /\ Player.league (loaded user_id (file w'))
       = rank_of (Player.level (loaded user_id (file w')))
    /\ forall other, other <> user_id ->
         loaded other (file w') = loaded other (file w).
Proof.
  rewrite fish_unfold.
  pose proof (fishing_keeps_file catches w) as Hfile1.
  destruct (fishing catches w) as [[e | [loot |]] w1];
    try discriminate.
  cbn [snd] in Hfile1.
  destruct (weight_algo_run loot w1) as (wt & w2 & -> & Hfile2 & Hwt).
  destruct (xp_loot_algo_run (Loot.set_weight loot wt) w2)
    as (xp & w3 & -> & Hfile3 & Hxp).
  destruct (PyFloat.round (reward xp wt)) as [cv |] eqn:Hround;
    [| discriminate].
  destruct (value_loot_algo_run
              (Loot.set_xp_loot (Loot.set_weight loot wt) xp) w3)
    as (v & w4 & -> & Hfile4 & Hv).
  assert (Hsame : file w4 = file w) by congruence.
  rewrite Hsame.
  assert (Hweight : not_negative wt = true).
  { destruct Hwt as [-> | (k & Hk & ->)];
      [reflexivity | apply literal_not_negative; lia]. }
  pose proof (reward_not_negative xp wt cv (proj1 Hxp) Hweight Hround) as Hcv.
  assert (Hid : forall f,
            Player.user_id
              (Player.level_check (credit (loaded user_id f) v cv)) = user_id).
  { intros f. unfold loaded.
    destruct (Player.find_user user_id (stats_of f)); reflexivity. }
  assert (Hnew : forall f,
            loaded user_id
              (Document
                 (Player.upsert
                    (Player.level_check (credit (loaded user_id f) v cv))
                    (stats_of f)))
            = Player.level_check (credit (loaded user_id f) v cv)).
  { intros f.
    pose proof (loaded_upsert_same
                  (Player.level_check (credit (loaded user_id f) v cv))
                  (stats_of f)) as Hsame'.
    rewrite (Hid f) in Hsame'. exact Hsame'. }
  assert (Hother : forall f other, other <> user_id ->
            loaded other
              (Document
                 (Player.upsert
                    (Player.level_check (credit (loaded user_id f) v cv))
                    (stats_of f)))
            = loaded other f).
  { intros f other Hne. apply loaded_upsert_other. rewrite Hid. exact Hne. }
  intros Hrun.
  assert (Hnot : file w <> Garbage)
    by (intros Hg; rewrite Hg in Hrun; discriminate Hrun).
  assert (Hres :
            (Return (Embed (Loot.set_value
                              (Loot.set_xp_loot (Loot.set_weight loot wt) xp)
                              v) wt cv v),
             {| rng := rng w4;
                file := Document
                          (Player.upsert
                             (Player.level_check
                                (credit (loaded user_id (file w)) v cv))
                             (stats_of (file w))) |})
            = (Return reply, w')).
  { destruct (file w); [exact Hrun | contradiction | exact Hrun]. }
  pose proof (f_equal fst Hres) as Hreply.
  pose proof (f_equal snd Hres) as Hworld.
  cbn [fst snd] in Hreply, Hworld. subst w'. cbn [file].
  rewrite Hnew. injection Hreply as Hreply.
  exists (Loot.set_value (Loot.set_xp_loot (Loot.set_weight loot wt) xp) v),
    wt, cv, v.
  split; [symmetry; exact Hreply |].
  split; [lia |]. split; [exact Hcv |]. split; [exact Hnot |].
  destruct (level_check_keeps (credit (loaded user_id (file w)) v cv))
    as (_ & Hmoney & Hlevel).
  split; [rewrite Hlevel; reflexivity |].
  split; [rewrite Hmoney; reflexivity |].
  split; [rewrite Hlevel; apply level_check_league |].
  intros other Hne. apply Hother. exact Hne.
Qed.

Lemma fish_reply_witness :
  exists catch wt cv v,
    Embed (Loot.mk "Rusty Can" "Trash"
             "A rusty can, once holding something edible." 4 0
             (literal 30 100)) (literal 30 100) 0 4
    = Embed catch wt cv v
    /\ 0 <= v /\ 0 <= cv
    /\ file {| rng := tape [2000000000000000; 3; 20; 3]; file := Absent |}
       <> Garbage
    /\ Player.level (loaded 42 (Document [mkEntry 42 0 4 "Minnow"]))
       = Player.level (loaded 42 Absent) + v
    /\ Player.money (loaded 42 (Document [mkEntry 42 0 4 "Minnow"]))
       = Player.money (loaded 42 Absent) + cv
    /\ Player.league (loaded 42 (Document [mkEntry 42 0 4 "Minnow"]))
       = rank_of (Player.level (loaded 42 (Document [mkEntry 42 0 4 "Minnow"])))
    /\ forall other, other <> 42 ->
         loaded other (Document [mkEntry 42 0 4 "Minnow"])
         = loaded other Absent.
Proof.
  apply (fish_reply CATCHES 42
           {| rng := tape [2000000000000000; 3; 20; 3]; file := Absent |}
           {| rng := fun n => tape [2000000000000000; 3; 20; 3] (S (S (S (S n))));
              file := Document [mkEntry 42 0 4 "Minnow"] |}).
  vm_compute. reflexivity.
Defined.

(** X16. A call of [fish] that raises has written nothing; and on an
    undecodable players file [fish] always raises, so it never replaces
    such a file. *)
Theorem fish_failure_writes_nothing (catches : list Loot.t) (user_id : Z)
    (w : World) :
  (forall e w', fish catches user_id w = (Raise e, w') -> file w' = file w)
  /\ (file w = Garbage ->
      exists e w', fish catches user_id w = (Raise e, w')).
Proof.
  rewrite fish_unfold.
  pose proof (fishing_keeps_file catches w) as Hfile1.
  destruct (fishing catches w) as [[e1 | [loot |]] w1];
    cbn [snd] in Hfile1;
    [split; [intros e w' [= <- <-]; exact Hfile1 | intros _; eauto]
    | | split; [intros e w' [= <- <-]; exact Hfile1 | intros _; eauto]].
  destruct (weight_algo_run loot w1) as (wt & w2 & -> & Hfile2 & _).
  destruct (xp_loot_algo_run (Loot.set_weight loot wt) w2)
    as (xp & w3 & -> & Hfile3 & _).
  destruct (PyFloat.round (reward xp wt)) as [cv |];
    [| split; [intros e w' [= <- <-]; congruence | intros _; eauto]].
  destruct (value_loot_algo_run
              (Loot.set_xp_loot (Loot.set_weight loot wt) xp) w3)
    as (v & w4 & -> & Hfile4 & _).
  assert (Hsame : file w4 = file w) by congruence.
  destruct (file w4) eqn:Hf4.
  - split; [intros; discriminate | intros Hg; congruence].
  - split; [intros e w' [= <- <-]; congruence | intros _; eauto].
  - split; [intros; discriminate | intros Hg; congruence].
Qed.

Lemma fish_failure_writes_nothing_witness :
  exists e w',
    fish CATCHES 42
      {| rng := tape [2000000000000000; 3; 20; 3]; file := Garbage |}
    = (Raise e, w').
Proof.
  apply (proj2 (fish_failure_writes_nothing CATCHES 42
                  {| rng := tape [2000000000000000; 3; 20; 3];
                     file := Garbage |})).
  reflexivity.
Defined.

(** A board of two players, as the command prints it. *)
Example leaderboard_two_players :
  leaderboard "money"
    {| rng := tape [];
       file := Document [mkEntry 3 1 20 "Minnow"; mkEntry 7 5 1200 "Guppy"] |}
  = (Return
       (Rich "Leaderboard" "Here is the current leaderboard sorted by Money : "
          [("Top Players",
            "1. <@7> - **5$**" ++ newline ++ "2. <@3> - **1$**" ++ newline)]),
     {| rng := tape [];
        file := Document [mkEntry 3 1 20 "Minnow"; mkEntry 7 5 1200 "Guppy"] |}).
Proof. vm_compute. reflexivity. Qed.
